(** * opt_mobilenet_onnx: graph surgery on the quantized MobileNetV1 model

    A shallow embedding of
    [samples/opensource/sampleMobileNetINT8API/opt_mobilenet_onnx.py]
    and the properties of [optimize_quantized_mobilenet] and [main].

    The ONNX protobuf messages are records, repeated fields are lists, the
    Python exceptions are an error type, and the script's effects (the file
    system it reads and writes, the lines it prints) are threaded through a
    small state-and-error monad.  The one call into the ONNX optimizer,
    [optimizer.optimize], is a parameter of the development. *)

From stdpp Require Import base strings gmap list sorting.

Local Open Scope Z_scope.
Local Open Scope string_scope.

(** ** The ONNX messages read and written by the script *)

Module AttributeProto.
(** The payload of an attribute; a float is kept as its bit pattern. *)
Inductive value :=
| FLOAT (bits : Z)
| INT (i : Z)
| STRING (s : string)
| INTS (ints : list Z).

Record t := mk { name : string; val : value }.

#[global] Instance value_eq_dec : EqDecision value.
Proof. solve_decision. Defined.
#[global] Instance eq_dec : EqDecision t.
Proof. solve_decision. Defined.
End AttributeProto.

Module NodeProto.
Record t := mk {
  input : list string;
  output : list string;
  name : string;
  op_type : string;
  attribute : list AttributeProto.t;
  doc_string : string
}.

#[global] Instance eq_dec : EqDecision t.
Proof. solve_decision. Defined.
End NodeProto.

Module TensorProto.
Record t := mk {
  dims : list Z;
  data_type : Z;
  name : string;
  raw_data : list Byte.byte
}.
End TensorProto.

Module ValueInfoProto.
Record t := mk {
  name : string;
  elem_type : Z;
  shape : list Z
}.
End ValueInfoProto.

Module GraphProto.
Record t := mk {
  node : list NodeProto.t;
  name : string;
  initializer : list TensorProto.t;
  input : list ValueInfoProto.t;
  output : list ValueInfoProto.t
}.
End GraphProto.

Module ModelProto.
Record t := mk {
  ir_version : Z;
  opset_import : list (string * Z);
  producer_name : string;
  graph : GraphProto.t
}.
End ModelProto.

(** ** Exceptions *)

(** The four [assert] statements of [optimize_quantized_mobilenet], with the
    values their messages are formatted from. *)
Inductive assertion :=
| ExpectedGemmLast
| ExpectedInputs (expected_inputs : nat) (op_type : string) (actual_inputs : nat)
| ExpectedOneOutput (op_type : string)
| InitializerName.

(** What a RuntimeError reports: the two [raise RuntimeError] statements of
    [main], or anything else (a library may raise one of its own). *)
Inductive runtime_reason :=
| CouldNotFindDirectory (top : string)
| CouldNotFindFile (top onnx_file_in : string)
| OtherReason (msg : string).

Inductive exn :=
| AssertionError (a : assertion)
| ValueError
| KeyError (key : string)
| IndexError
| RuntimeError (r : runtime_reason)
| OSError (path : string)
| DecodeError.

Definition is_RuntimeError (e : exn) : bool :=
  match e with RuntimeError _ => true | _ => false end.

(** ** The world of the script: files and standard output *)

Inductive FileContent :=
| OnnxModel (m : ModelProto.t)
| Unparsable.

Inductive Entry :=
| Directory
| RegularFile (c : FileContent).

(** One constructor per [print] call, with the values formatted into it. *)
Inductive Line :=
| Reading (name_in : string)
| Removing (op_type : string) (inputs outputs : list string)
| Adding (name : string) (inputs outputs : list string)
| Saving (name_out : string)
| Done.

Record World := mkWorld {
  files : gmap string Entry;
  stdout : list Line
}.

(** ** The monad of Python statements *)

Definition Py (A : Type) : Type := World -> (exn + A) * World.

#[global] Instance Py_ret : MRet Py := fun A (a : A) w => (inr a, w).

#[global] Instance Py_bind : MBind Py := fun A B (k : A -> Py B) (c : Py A) w =>
  match c w with
  | (inr a, w') => k a w'
  | (inl e, w') => (inl e, w')
  end.

Definition raise {A} (e : exn) : Py A := fun w => (inl e, w).

Definition lift {A} (r : exn + A) : Py A :=
  match r with inl e => raise e | inr a => mret a end.

Definition print (l : Line) : Py unit :=
  fun w => (inr tt, {| files := files w; stdout := (stdout w ++ [l])%list |}).

Definition py_assert (b : bool) (a : assertion) : Py unit :=
  if b then mret tt else raise (AssertionError a).

(** ** Python and protobuf container operations *)

(** [l[-1]] *)
Definition getitem_last {A} (l : list A) : exn + A :=
  match last l with Some x => inr x | None => inl IndexError end.

(** [l[0]] *)
Definition getitem_first {A} (l : list A) : exn + A :=
  match l with x :: _ => inr x | [] => inl IndexError end.

(** [l[-2]] *)
Definition getitem_penultimate {A} (l : list A) : exn + A :=
  if (2 <=? length l)%nat then
    match l !! (length l - 2)%nat with Some x => inr x | None => inl IndexError end
  else inl IndexError.

(** [l[-3:]], a fresh list of the last three elements (all of them when
    there are fewer). *)
Definition slice_last3 {A} (l : list A) : list A :=
  drop (length l - 3)%nat l.

(** [_, b, c = l] *)
Definition unpack3 {A} (l : list A) : exn + (A * A * A) :=
  match l with
  | [a; b; c] => inr (a, b, c)
  | _ => inl ValueError
  end.

(** [d[k]] *)
Definition dict_getitem {V} (d : gmap string V) (k : string) : exn + V :=
  match d !! k with Some v => inr v | None => inl (KeyError k) end.

(** [RepeatedCompositeContainer.remove]: deletes the first element that
    compares equal to [x]; [None] when there is none. *)
Fixpoint remove_first {A} `{EqDecision A} (x : A) (l : list A) : option (list A) :=
  match l with
  | [] => None
  | y :: l' =>
      if decide (y = x) then Some l'
      else match remove_first x l' with
           | Some r => Some (y :: r)
           | None => None
           end
  end.

Definition repeated_remove {A} `{EqDecision A} (x : A) (l : list A) : exn + list A :=
  match remove_first x l with Some r => inr r | None => inl ValueError end.

(** ** The parts of the [onnx] and [os.path] libraries the script calls *)

(** [posixpath.join] of two components. *)
Definition ends_with_sep (s : string) : bool :=
  String.eqb (String.substring (String.length s - 1) 1 s) "/".

Definition path_join (a b : string) : string :=
  if String.prefix "/" b then b
  else if bool_decide (a = "") || ends_with_sep a then a ++ b
  else a ++ "/" ++ b.

(** [os.path.isdir] and [os.path.isfile] *)
Definition isdir (fs : gmap string Entry) (p : string) : bool :=
  match fs !! p with Some Directory => true | _ => false end.

Definition isfile (fs : gmap string Entry) (p : string) : bool :=
  match fs !! p with Some (RegularFile _) => true | _ => false end.

Definition path_isdir (p : string) : Py bool :=
  fun w => (inr (isdir (files w) p), w).

Definition path_isfile (p : string) : Py bool :=
  fun w => (inr (isfile (files w) p), w).

(** [onnx.load]: reads and parses the file. *)
Definition read_model (f : string) (e : option Entry) : exn + ModelProto.t :=
  match e with
  | Some (RegularFile (OnnxModel m)) => inr m
  | Some (RegularFile Unparsable) => inl DecodeError
  | Some Directory | None => inl (OSError f)
  end.

Definition onnx_load (f : string) : Py ModelProto.t :=
  fun w => (read_model f (files w !! f), w).

(** [onnx.save]: serializes the model into the file, replacing what was
    there.  Failures of the write itself (a path that is a directory or
    cannot be written) are not modelled: the properties below that say a
    run completes take the write to succeed. *)
Definition onnx_save (m : ModelProto.t) (f : string) : Py unit :=
  fun w => (inr tt, {| files := <[f := RegularFile (OnnxModel m)]> (files w);
                       stdout := stdout w |}).

(** [onnx.helper.make_node] called with integer-list keyword attributes:
    the attributes are added in the sorted order of their keys. *)
Definition make_node (op_type : string) (name : string)
    (inputs outputs : list string) (kwargs : list (string * list Z)) : NodeProto.t :=
  {| NodeProto.input := inputs;
     NodeProto.output := outputs;
     NodeProto.name := name;
     NodeProto.op_type := op_type;
     NodeProto.attribute :=
       (fun kv => AttributeProto.mk kv.1 (AttributeProto.INTS kv.2))
         <$> merge_sort (fun x y => String.leb x.1 y.1) kwargs;
     NodeProto.doc_string := "" |}.

(** In-place updates of the fields the script assigns to. *)
Definition extend_dims (extra : list Z) (t : TensorProto.t) : TensorProto.t :=
  {| TensorProto.dims := (TensorProto.dims t ++ extra)%list;
     TensorProto.data_type := TensorProto.data_type t;
     TensorProto.name := TensorProto.name t;
     TensorProto.raw_data := TensorProto.raw_data t |}.

Definition with_graph (m : ModelProto.t) (node : list NodeProto.t)
    (initializer : list TensorProto.t) : ModelProto.t :=
  {| ModelProto.ir_version := ModelProto.ir_version m;
     ModelProto.opset_import := ModelProto.opset_import m;
     ModelProto.producer_name := ModelProto.producer_name m;
     ModelProto.graph :=
       {| GraphProto.node := node;
          GraphProto.name := GraphProto.name (ModelProto.graph m);
          GraphProto.initializer := initializer;
          GraphProto.input := GraphProto.input (ModelProto.graph m);
          GraphProto.output := GraphProto.output (ModelProto.graph m) |} |}.

(** ** The script *)

(** [dict(Constant=0, Reshape=2, Gemm=3)] *)
Definition expected_inputs_dict : gmap string nat :=
  list_to_map [("Constant", 0%nat); ("Reshape", 2%nat); ("Gemm", 3%nat)].

(** The body of the [for removable_node in nodes[-3:]] loop; [graph_node]
    is the current content of [model.graph.node]. *)
Definition remove_node (removable_node : NodeProto.t)
    (graph_node : list NodeProto.t) : Py (list NodeProto.t) :=
  expected_inputs ← lift (dict_getitem expected_inputs_dict
                            (NodeProto.op_type removable_node));
  let actual_inputs := length (NodeProto.input removable_node) in
  py_assert (bool_decide (actual_inputs = expected_inputs))
    (ExpectedInputs expected_inputs (NodeProto.op_type removable_node) actual_inputs);;
  py_assert (bool_decide (length (NodeProto.output removable_node) = 1%nat))
    (ExpectedOneOutput (NodeProto.op_type removable_node));;
  print (Removing (NodeProto.op_type removable_node)
           (NodeProto.input removable_node) (NodeProto.output removable_node));;
  lift (repeated_remove removable_node graph_node).

(** The loop itself, over the slice taken before the first iteration. *)
Fixpoint remove_nodes (slice : list NodeProto.t)
    (graph_node : list NodeProto.t) : Py (list NodeProto.t) :=
  match slice with
  | [] => mret graph_node
  | removable_node :: slice' =>
      graph_node' ← remove_node removable_node graph_node;
      remove_nodes slice' graph_node'
  end.

Section Script.

(** [onnx.optimizer.optimize model passes] *)
Variable optimize : ModelProto.t -> list string -> exn + ModelProto.t.

Definition optimize_quantized_mobilenet (name_in name_out : string) : Py unit :=
  print (Reading name_in);;
  model ← onnx_load name_in;
  model ← lift (optimize model ["eliminate_nop_pad"]);
  let nodes := GraphProto.node (ModelProto.graph model) in
  last_node ← lift (getitem_last nodes);
  py_assert (String.eqb (NodeProto.op_type last_node) "Gemm") ExpectedGemmLast;;
  '(_, gemm_weights_name, gemm_bias_name) ← lift (unpack3 (NodeProto.input last_node));
  graph_node ← remove_nodes (slice_last3 nodes) nodes;
  avgpool ← lift (getitem_last graph_node);
  avgpool_output_name ← lift (getitem_first (NodeProto.output avgpool));
  let initializer := GraphProto.initializer (ModelProto.graph model) in
  weights ← lift (getitem_penultimate initializer);
  py_assert (String.eqb (TensorProto.name weights) gemm_weights_name) InitializerName;;
  let initializer :=
    alter (extend_dims [1; 1]) (length initializer - 2)%nat initializer in
  let last_conv_name := "last_conv_fc" in
  let last_conv_inputs := [avgpool_output_name; gemm_weights_name; gemm_bias_name] in
  model_output ← lift (getitem_first (GraphProto.output (ModelProto.graph model)));
  let last_conv_outputs := [ValueInfoProto.name model_output] in
  let last_conv_fc :=
    make_node "Conv" last_conv_name last_conv_inputs last_conv_outputs
      [("kernel_shape", [1; 1]); ("strides", [1; 1]); ("pads", [0; 0; 0; 0])] in
  print (Adding last_conv_name last_conv_inputs last_conv_outputs);;
  let graph_node := (graph_node ++ [last_conv_fc])%list in
  print (Saving name_out);;
  onnx_save (with_graph model graph_node initializer) name_out;;
  print Done.

Definition main : Py unit :=
  let top := "./Quantized MobileNet" in
  top_isdir ← path_isdir top;
  if negb top_isdir then raise (RuntimeError (CouldNotFindDirectory top)) else
  let onnx_file_in := path_join top "mobilenet_sym_no_bn.onnx" in
  onnx_file_in_isfile ← path_isfile onnx_file_in;
  if negb onnx_file_in_isfile then raise (RuntimeError (CouldNotFindFile top onnx_file_in)) else
  let onnx_file_out := "mobilenet_quantized_opt.onnx" in
  optimize_quantized_mobilenet onnx_file_in onnx_file_out.

End Script.

(** ** The [eliminate_nop_pad] pass *)

(** A Pad node pads by nothing when its [pads] attribute is all zeros. *)
Definition is_nop_pad (n : NodeProto.t) : bool :=
  String.eqb (NodeProto.op_type n) "Pad" &&
  existsb (fun a =>
             String.eqb (AttributeProto.name a) "pads" &&
             match AttributeProto.val a with
             | AttributeProto.INTS ints => forallb (Z.eqb 0) ints
             | _ => false
             end)
          (NodeProto.attribute n).

Definition no_nop_pad (m : ModelProto.t) : bool :=
  forallb (fun n => negb (is_nop_pad n)) (GraphProto.node (ModelProto.graph m)).

(** A reference behaviour of the optimizer, used to run the script on
    concrete models: each no-op Pad node is dropped and the later nodes
    that read its output read its input instead; any other pass name
    leaves the model as it is. *)
Definition rename_input (sub : list (string * string)) (x : string) : string :=
  match list_find (fun p => p.1 = x) sub with
  | Some (_, (_, y)) => y
  | None => x
  end.

Definition rename_inputs (sub : list (string * string)) (n : NodeProto.t) : NodeProto.t :=
  {| NodeProto.input := rename_input sub <$> NodeProto.input n;
     NodeProto.output := NodeProto.output n;
     NodeProto.name := NodeProto.name n;
     NodeProto.op_type := NodeProto.op_type n;
     NodeProto.attribute := NodeProto.attribute n;
     NodeProto.doc_string := NodeProto.doc_string n |}.

Fixpoint eliminate_nop_pad (sub : list (string * string))
    (l : list NodeProto.t) : list NodeProto.t :=
  match l with
  | [] => []
  | n :: l' =>
      let n' := rename_inputs sub n in
      if is_nop_pad n' then
        match NodeProto.input n', NodeProto.output n' with
        | x :: _, [y] => eliminate_nop_pad ((y, x) :: sub) l'
        | _, _ => n' :: eliminate_nop_pad sub l'
        end
      else n' :: eliminate_nop_pad sub l'
  end.

Definition reference_optimize (m : ModelProto.t) (passes : list string)
    : exn + ModelProto.t :=
  if bool_decide ("eliminate_nop_pad" ∈ passes) then
    inr (with_graph m (eliminate_nop_pad [] (GraphProto.node (ModelProto.graph m)))
           (GraphProto.initializer (ModelProto.graph m)))
  else inr m.

(** ** The surgery as a function of the in-memory model

    What [optimize_quantized_mobilenet] computes between the call of the
    optimizer and [onnx.save], without the lines it prints.  The lemmas
    of the next section relate it to the script. *)

#[global] Instance result_ret : MRet (sum exn) := fun A => inr.

#[global] Instance result_bind : MBind (sum exn) := fun A B (k : A -> exn + B) c =>
  match c with inl e => inl e | inr a => k a end.

Definition check (b : bool) (a : assertion) : exn + unit :=
  if b then inr tt else inl (AssertionError a).

Definition check_node (n : NodeProto.t) : exn + unit :=
  expected_inputs ← dict_getitem expected_inputs_dict (NodeProto.op_type n);
  check (bool_decide (length (NodeProto.input n) = expected_inputs))
    (ExpectedInputs expected_inputs (NodeProto.op_type n) (length (NodeProto.input n)));;
  check (bool_decide (length (NodeProto.output n) = 1%nat))
    (ExpectedOneOutput (NodeProto.op_type n)).

Fixpoint removals (slice graph_node : list NodeProto.t) : exn + list NodeProto.t :=
  match slice with
  | [] => inr graph_node
  | n :: slice' =>
      check_node n;;
      graph_node' ← repeated_remove n graph_node;
      removals slice' graph_node'
  end.

Definition last_conv_fc (avgpool_output_name gemm_weights_name gemm_bias_name
    model_output_name : string) : NodeProto.t :=
  make_node "Conv" "last_conv_fc"
    [avgpool_output_name; gemm_weights_name; gemm_bias_name] [model_output_name]
    [("kernel_shape", [1; 1]); ("strides", [1; 1]); ("pads", [0; 0; 0; 0])].

Definition surgery (model : ModelProto.t) : exn + ModelProto.t :=
  let nodes := GraphProto.node (ModelProto.graph model) in
  let initializer := GraphProto.initializer (ModelProto.graph model) in
  last_node ← getitem_last nodes;
  check (String.eqb (NodeProto.op_type last_node) "Gemm") ExpectedGemmLast;;
  '(_, gemm_weights_name, gemm_bias_name) ← unpack3 (NodeProto.input last_node);
  graph_node ← removals (slice_last3 nodes) nodes;
  avgpool ← getitem_last graph_node;
  avgpool_output_name ← getitem_first (NodeProto.output avgpool);
  weights ← getitem_penultimate initializer;
  check (String.eqb (TensorProto.name weights) gemm_weights_name) InitializerName;;
  model_output ← getitem_first (GraphProto.output (ModelProto.graph model));
  inr (with_graph model
         (graph_node ++
            [last_conv_fc avgpool_output_name gemm_weights_name gemm_bias_name
               (ValueInfoProto.name model_output)])%list
         (alter (extend_dims [1; 1]) (length initializer - 2)%nat initializer)).

(** The guards of the removal step, as conditions on the model: the last
    node is a Gemm node, and each of the last three nodes has the number
    of inputs its operator expects and exactly one output. *)
Definition last_is_gemm (nodes : list NodeProto.t) : bool :=
  match last nodes with
  | Some last_node => String.eqb (NodeProto.op_type last_node) "Gemm"
  | None => false
  end.

Definition node_guard (n : NodeProto.t) : bool :=
  match expected_inputs_dict !! NodeProto.op_type n with
  | Some expected_inputs =>
      bool_decide (length (NodeProto.input n) = expected_inputs) &&
      bool_decide (length (NodeProto.output n) = 1%nat)
  | None => false
  end.

Definition node_guards (nodes : list NodeProto.t) : bool :=
  last_is_gemm nodes && forallb node_guard (slice_last3 nodes).

(** The guard on the initializers: the second-to-last one carries the name
    of the Gemm node's weights input. *)
Definition weights_guard (model : ModelProto.t) : bool :=
  match last (GraphProto.node (ModelProto.graph model)),
        getitem_penultimate (GraphProto.initializer (ModelProto.graph model)) with
  | Some last_node, inr weights =>
      match NodeProto.input last_node with
      | [_; gemm_weights_name; _] =>
          String.eqb (TensorProto.name weights) gemm_weights_name
      | _ => false
      end
  | _, _ => false
  end.

(** The removals alone, without the checks. *)
Fixpoint remove_all (slice graph_node : list NodeProto.t) : option (list NodeProto.t) :=
  match slice with
  | [] => Some graph_node
  | n :: slice' =>
      match remove_first n graph_node with
      | Some graph_node' => remove_all slice' graph_node'
      | None => None
      end
  end.

Section Outcome.

Variable optimize : ModelProto.t -> list string -> exn + ModelProto.t.

(** The model that a run saves, or the exception it ends with, from the
    entry found at [name_in]. *)
Definition outcome (name_in : string) (e : option Entry) : exn + ModelProto.t :=
  model ← read_model name_in e;
  model ← optimize model ["eliminate_nop_pad"];
  surgery model.

End Outcome.

(** When the surgery succeeds, and what it returns then. *)
Inductive surgery_result (model : ModelProto.t) : ModelProto.t -> Prop :=
| Surgery_result last_node x gemm_weights_name gemm_bias_name graph_node
      avgpool avgpool_output_name os weights model_output vos :
    let nodes := GraphProto.node (ModelProto.graph model) in
    let initializer := GraphProto.initializer (ModelProto.graph model) in
    last nodes = Some last_node ->
    NodeProto.op_type last_node = "Gemm" ->
    NodeProto.input last_node = [x; gemm_weights_name; gemm_bias_name] ->
    forallb node_guard (slice_last3 nodes) = true ->
    remove_all (slice_last3 nodes) nodes = Some graph_node ->
    last graph_node = Some avgpool ->
    NodeProto.output avgpool = avgpool_output_name :: os ->
    getitem_penultimate initializer = inr weights ->
    TensorProto.name weights = gemm_weights_name ->
    GraphProto.output (ModelProto.graph model) = model_output :: vos ->
    surgery_result model
      (with_graph model
         (graph_node ++
            [last_conv_fc avgpool_output_name gemm_weights_name gemm_bias_name
               (ValueInfoProto.name model_output)])%list
         (alter (extend_dims [1; 1]) (length initializer - 2)%nat initializer)).

(** The line that the loop prints for a node before it removes it. *)
Definition removing_line (n : NodeProto.t) : Line :=
  Removing (NodeProto.op_type n) (NodeProto.input n) (NodeProto.output n).

(** ** Concrete models

    Small graphs with the tail of the quantized MobileNetV1 model, and
    variations of it, on which the script is run below. *)

Module Examples.

Definition node (op_type : string) (inputs outputs : list string) : NodeProto.t :=
  NodeProto.mk inputs outputs "" op_type [] "".

Definition pad (pads : list Z) (input output : string) : NodeProto.t :=
  NodeProto.mk [input] [output] "" "Pad"
    [AttributeProto.mk "mode" (AttributeProto.STRING "constant");
     AttributeProto.mk "pads" (AttributeProto.INTS pads)] "".

Definition fc_w : TensorProto.t := TensorProto.mk [1000; 1024] 1 "fc_w" [].
Definition fc_b : TensorProto.t := TensorProto.mk [1000] 1 "fc_b" [].
Definition conv_w : TensorProto.t := TensorProto.mk [32; 3; 3; 3] 1 "conv_w" [].

Definition model (nodes : list NodeProto.t) (outputs : list ValueInfoProto.t)
    : ModelProto.t :=
  ModelProto.mk 3 [("", 7)] "example"
    (GraphProto.mk nodes "mobilenet" [conv_w; fc_w; fc_b]
       [ValueInfoProto.mk "data" 1 [1; 3; 224; 224]] outputs).

Definition prob : ValueInfoProto.t := ValueInfoProto.mk "prob" 1 [1; 1000].

Definition constant : NodeProto.t := node "Constant" [] ["shape"].
Definition reshape : NodeProto.t := node "Reshape" ["pooled"; "shape"] ["flat"].
Definition gemm : NodeProto.t := node "Gemm" ["flat"; "fc_w"; "fc_b"] ["prob"].
Definition relu : NodeProto.t := node "Relu" ["conv"] ["relu"].
Definition avgpool (input : string) : NodeProto.t :=
  node "AveragePool" [input] ["pooled"].

(** The tail of the real model: a Pad that pads by nothing, the last
    AveragePool, and the three nodes of the fully-connected layer. *)
Definition mobilenet : ModelProto.t :=
  model [relu; pad [0; 0; 0; 0; 0; 0; 0; 0] "relu" "padded"; avgpool "padded";
         constant; reshape; gemm] [prob].

(** The same after the optimizer has dropped the Pad node. *)
Definition mobilenet_no_pad : ModelProto.t :=
  model [relu; avgpool "relu"; constant; reshape; gemm] [prob].

(** Only the three nodes of the fully-connected layer. *)
Definition only_fc : ModelProto.t := model [constant; reshape; gemm] [prob].

(** The Constant node of the fully-connected layer occurs a second time,
    earlier in the graph. *)
Definition twice_constant : ModelProto.t :=
  model [constant; avgpool "relu"; constant; reshape; gemm] [prob].

(** A Flatten node among the last three, after a Constant node that has
    an input. *)
Definition flatten_after_bad_constant : ModelProto.t :=
  model [avgpool "relu"; node "Constant" ["relu"] ["shape"];
         node "Flatten" ["pooled"] ["flat"]; gemm] [prob].

(** A Flatten node is the first of the last three. *)
Definition flatten_first : ModelProto.t :=
  model [avgpool "relu"; node "Flatten" ["pooled"] ["flat0"]; reshape; gemm] [prob].

(** The last node is a Gemm node without a bias input. *)
Definition gemm_without_bias : ModelProto.t :=
  model [avgpool "relu"; constant; reshape; node "Gemm" ["flat"; "fc_w"] ["prob"]]
    [prob].

(** No node at all. *)
Definition no_nodes : ModelProto.t := model [] [prob].

(** The Gemm node is missing: the last node is the Reshape node. *)
Definition reshape_last : ModelProto.t :=
  model [relu; avgpool "relu"; constant; reshape] [prob].

(** The Reshape node comes before the Constant node. *)
Definition reshape_before_constant : ModelProto.t :=
  model [relu; avgpool "relu"; reshape; constant; gemm] [prob].

(** The weights input of the Gemm node is not the second-to-last
    initializer. *)
Definition other_weights : ModelProto.t :=
  model [relu; avgpool "relu"; constant; reshape;
         node "Gemm" ["flat"; "conv_w"; "fc_b"] ["prob"]] [prob].

Definition world (name_in : string) (m : ModelProto.t) : World :=
  {| files := {[ name_in := RegularFile (OnnxModel m) ]}; stdout := [] |}.

(** The directory and file that [main] looks for. *)
Definition main_world (m : ModelProto.t) : World :=
  {| files := <["./Quantized MobileNet" := Directory]>
                {[ "./Quantized MobileNet/mobilenet_sym_no_bn.onnx"
                     := RegularFile (OnnxModel m) ]};
     stdout := [] |}.

End Examples.

(** ** The script computes [outcome] *)

Ltac py_unfold :=
  cbv [mbind mret Py_bind Py_ret result_bind result_ret lift raise
       py_assert check print onnx_load onnx_save] in *.

Ltac same_files := eexists; split; [reflexivity | simpl; try done].

Lemma remove_node_spec n g w :
  ∃ w', remove_node n g w = (check_node n ;; repeated_remove n g, w') ∧
        files w' = files w.
Proof.
  unfold remove_node, check_node. py_unfold.
  destruct (dict_getitem _ _) as [e|k]; [same_files|].
  destruct (bool_decide (length (NodeProto.input n) = k)); [|same_files].
  destruct (bool_decide (length (NodeProto.output n) = 1%nat)); [|same_files].
  simpl. destruct (repeated_remove n g); same_files.
Qed.

Lemma remove_nodes_spec slice : ∀ g w,
  ∃ w', remove_nodes slice g w = (removals slice g, w') ∧ files w' = files w.
Proof.
  induction slice as [|n slice IH]; intros g w; simpl.
  - same_files.
  - unfold mbind at 1, Py_bind.
    destruct (remove_node_spec n g w) as (w1 & -> & Hw1).
    unfold mbind at 2 3, result_bind.
    destruct (check_node n) as [e|[]]; simpl; [same_files|].
    destruct (repeated_remove n g) as [e|g']; simpl; [same_files|].
    destruct (IH g' w1) as (w2 & -> & Hw2). exists w2. split; [done|congruence].
Qed.

Section Refinement.

Variable optimize : ModelProto.t -> list string -> exn + ModelProto.t.

Lemma optimize_quantized_mobilenet_spec name_in name_out w :
  ∃ w', optimize_quantized_mobilenet optimize name_in name_out w
          = (outcome optimize name_in (files w !! name_in) ≫= (λ _, inr tt), w') ∧
        files w' = match outcome optimize name_in (files w !! name_in) with
                   | inr model => <[name_out := RegularFile (OnnxModel model)]> (files w)
                   | inl _ => files w
                   end.
Proof.
  unfold optimize_quantized_mobilenet, outcome, surgery.
  unfold mbind at 1, Py_bind at 1. unfold print at 1.
  unfold mbind at 1, Py_bind at 1. unfold onnx_load at 1. simpl files.
  destruct (read_model name_in (files w !! name_in)) as [e|m0]; simpl; [same_files|].
  unfold mbind at 1, Py_bind at 1. unfold lift at 1.
  destruct (optimize m0 _) as [e|m1]; simpl; [same_files|].
  set (nodes := GraphProto.node (ModelProto.graph m1)).
  unfold mbind at 1, Py_bind at 1. unfold lift at 1.
  destruct (getitem_last nodes) as [e|g]; simpl; [same_files|].
  unfold mbind at 1, Py_bind at 1. unfold py_assert at 1, check at 1.
  destruct (String.eqb _ _); simpl; [|same_files].
  unfold mbind at 1, Py_bind at 1. unfold lift at 1.
  destruct (unpack3 _) as [e|[[x gw] gb]]; simpl; [same_files|].
  unfold mbind at 1, Py_bind at 1.
  match goal with |- context [remove_nodes ?s ?g ?w0] =>
    destruct (remove_nodes_spec s g w0) as (w1 & -> & Hw1) end.
  destruct (removals _ _) as [e|graph_node]; simpl; [same_files|].
  unfold mbind at 1, Py_bind at 1. unfold lift at 1.
  destruct (getitem_last graph_node) as [e|avgpool]; simpl; [same_files|].
  unfold mbind at 1, Py_bind at 1. unfold lift at 1.
  destruct (getitem_first (NodeProto.output avgpool)) as [e|o]; simpl; [same_files|].
  unfold mbind at 1, Py_bind at 1. unfold lift at 1.
  destruct (getitem_penultimate _) as [e|weights]; simpl; [same_files|].
  unfold mbind at 1, Py_bind at 1. unfold py_assert at 1, check at 1.
  destruct (String.eqb _ _); simpl; [|same_files].
  unfold mbind at 1, Py_bind at 1. unfold lift at 1.
  destruct (getitem_first (GraphProto.output _)) as [e|vo]; simpl; [same_files|].
  py_unfold. simpl. rewrite Hw1. same_files.
Qed.

End Refinement.

(** ** The checks and the removals *)

Local Open Scope list_scope.

Lemma check_node_guard n :
  check_node n = if node_guard n then inr tt
                 else match check_node n with inl e => inl e | inr _ => inl ValueError end.
Proof.
  unfold check_node, node_guard, dict_getitem. py_unfold.
  destruct (expected_inputs_dict !! NodeProto.op_type n) as [k|]; [|done].
  destruct (bool_decide (length (NodeProto.input n) = k)); [|done].
  by destruct (bool_decide (length (NodeProto.output n) = 1%nat)).
Qed.

Lemma check_node_inr n : check_node n = inr tt ↔ node_guard n = true.
Proof.
  rewrite check_node_guard. destruct (node_guard n); [done|].
  split; [|done]. by destruct (check_node n).
Qed.

Lemma removals_inr slice : ∀ g g',
  removals slice g = inr g' ↔
  forallb node_guard slice = true ∧ remove_all slice g = Some g'.
Proof.
  induction slice as [|n slice IH]; intros g g'; simpl.
  - split; [by intros [= ->]|by intros [_ [= ->]]].
  - unfold mbind, result_bind, repeated_remove.
    destruct (check_node n) as [e|[]] eqn:E.
    + destruct (node_guard n) eqn:G; [|split; [done|by intros [? _]]].
      apply check_node_inr in G. congruence.
    + apply check_node_inr in E. rewrite E. simpl.
      destruct (remove_first n g) as [g1|]; [apply IH|].
      split; [done|by intros [_ ?]].
Qed.

Lemma remove_first_middle (x : NodeProto.t) pre post :
  x ∉ pre → remove_first x (pre ++ x :: post) = Some (pre ++ post).
Proof.
  induction pre as [|y pre IH]; intros Hx; simpl.
  - by rewrite decide_True.
  - apply not_elem_of_cons in Hx as [Hne Hx].
    rewrite decide_False by done. by rewrite IH.
Qed.

Lemma remove_all_suffix slice : ∀ pre,
  (∀ x, x ∈ slice → x ∉ pre) → remove_all slice (pre ++ slice) = Some pre.
Proof.
  induction slice as [|n slice IH]; intros pre H; simpl.
  - by rewrite app_nil_r.
  - rewrite remove_first_middle by (apply H; left).
    apply IH. intros x Hx. apply H. by right.
Qed.

Lemma remove_first_Some (x : NodeProto.t) l :
  x ∈ l → ∃ l', remove_first x l = Some l' ∧ l ≡ₚ x :: l'.
Proof.
  induction l as [|y l IH]; intros Hx; [by apply elem_of_nil in Hx|]. simpl.
  destruct (decide (y = x)) as [->|Hne]; [by eexists|].
  apply elem_of_cons in Hx as [->|Hx]; [done|].
  destruct (IH Hx) as (l' & -> & Hp). eexists. split; [done|].
  rewrite Hp. apply Permutation_swap.
Qed.

Lemma remove_first_sublist (x : NodeProto.t) l l' :
  remove_first x l = Some l' → l' `sublist_of` l.
Proof.
  revert l'. induction l as [|y l IH]; intros l'; simpl; [done|].
  destruct (decide (y = x)); [intros [= ->]; by apply sublist_cons|].
  destruct (remove_first x l) as [r|]; [|done].
  intros [= <-]. apply sublist_skip. by apply IH.
Qed.

Lemma remove_all_Some slice : ∀ g,
  slice ⊆+ g → ∃ g', remove_all slice g = Some g' ∧ g ≡ₚ slice ++ g'.
Proof.
  induction slice as [|n slice IH]; intros g H; simpl; [by eexists|].
  apply submseteq_cons_l in H as (k & Hk & Hs).
  destruct (remove_first_Some n g) as (g1 & -> & Hg1).
  { rewrite Hk. left. }
  destruct (IH g1) as (g' & -> & Hg').
  { rewrite Hk in Hg1. apply Permutation_cons_inv in Hg1. by rewrite <-Hg1. }
  eexists. split; [done|]. by rewrite Hg1, Hg'.
Qed.

Lemma remove_all_sublist slice : ∀ g g',
  remove_all slice g = Some g' → g' `sublist_of` g.
Proof.
  induction slice as [|n slice IH]; intros g g'; simpl; [by intros [= ->]|].
  destruct (remove_first n g) as [g1|] eqn:E; [|done].
  intros H. etrans; [by apply IH|by eapply remove_first_sublist].
Qed.

Lemma remove_all_length slice : ∀ g g',
  remove_all slice g = Some g' → (length g = length slice + length g')%nat.
Proof.
  induction slice as [|n slice IH]; intros g g'; simpl; [by intros [= ->]|].
  destruct (remove_first n g) as [g1|] eqn:E; [|done].
  intros H. apply IH in H. 
  assert (n ∈ g) as Hn.
  { clear -E. revert g1 E. induction g as [|y g IHg]; simpl; [done|].
    intros g1. destruct (decide (y = n)) as [->|]; [left|].
    destruct (remove_first n g); [|done]. intros _. right. by eapply IHg. }
  destruct (remove_first_Some n g Hn) as (g2 & E2 & Hp).
  rewrite E in E2. injection E2 as <-. rewrite Hp. simpl. lia.
Qed.

(** The removal loop never fails to find the node it removes. *)
Lemma remove_all_slice_last3 nodes :
  ∃ g', remove_all (slice_last3 nodes) nodes = Some g'.
Proof.
  destruct (remove_all_Some (slice_last3 nodes) nodes) as (g' & H & _); [|by eexists].
  apply sublist_submseteq, sublist_drop.
Qed.

(** ** When the surgery succeeds *)

Lemma unpack3_inr {A} (l : list A) a b c :
  unpack3 l = inr (a, b, c) ↔ l = [a; b; c].
Proof.
  destruct l as [|a' [|b' [|c' [|d l]]]]; simpl; split;
    intros H; try discriminate; by simplify_eq.
Qed.

Lemma getitem_last_inr {A} (l : list A) x : getitem_last l = inr x ↔ last l = Some x.
Proof. unfold getitem_last. destruct (last l); split; intros; by simplify_eq. Qed.

Lemma getitem_first_inr {A} (l : list A) x :
  getitem_first l = inr x ↔ ∃ l', l = x :: l'.
Proof.
  destruct l as [|y l]; simpl; split.
  - done.
  - by intros [? ?].
  - intros [= ->]. by eexists.
  - intros [? [= -> _]]. done.
Qed.

Lemma string_eqb_true (a b : string) : String.eqb a b = true ↔ a = b.
Proof. apply String.eqb_eq. Qed.

Lemma surgery_inr model model' :
  surgery model = inr model' ↔ surgery_result model model'.
Proof.
  split.
  - unfold surgery. cbv [mbind result_bind check].
    destruct (getitem_last _) as [|g] eqn:Hg; [done|].
    destruct (String.eqb _ _) eqn:Hop; [|done].
    destruct (unpack3 _) as [|[[x gw] gb]] eqn:Hin; [done|].
    destruct (removals _ _) as [|graph_node] eqn:Hrm; [done|].
    destruct (getitem_last graph_node) as [|avgpool] eqn:Havg; [done|].
    destruct (getitem_first (NodeProto.output avgpool)) as [|o] eqn:Ho; [done|].
    destruct (getitem_penultimate _) as [|weights] eqn:Hw; [done|].
    destruct (String.eqb (TensorProto.name weights) gw) eqn:Hname; [|done].
    destruct (getitem_first (GraphProto.output _)) as [|vo] eqn:Hvo; [done|].
    intros [= <-].
    apply getitem_last_inr in Hg, Havg. apply string_eqb_true in Hop, Hname.
    apply unpack3_inr in Hin. apply removals_inr in Hrm as [Hguard Hrm].
    apply getitem_first_inr in Ho as [os Ho], Hvo as [vos Hvo].
    by eapply Surgery_result.
  - intros [g x gw gb graph_node avgpool o os weights vo vos nodes initializer
             Hg Hop Hin Hguard Hrm Havg Ho Hw Hname Hvo].
    unfold surgery. cbv [mbind result_bind check].
    fold nodes initializer.
    apply getitem_last_inr in Hg, Havg. rewrite Hg.
    apply string_eqb_true in Hop, Hname. rewrite Hop.
    apply unpack3_inr in Hin. rewrite Hin.
    assert (removals (slice_last3 nodes) nodes = inr graph_node) as ->
      by by apply removals_inr.
    rewrite Havg, Ho. simpl. rewrite Hw, Hname, Hvo. done.
Qed.

Lemma last_in_slice_last3 (nodes : list NodeProto.t) g :
  last nodes = Some g → g ∈ slice_last3 nodes.
Proof.
  intros H. apply last_Some in H as [l' ->]. unfold slice_last3.
  rewrite drop_app_le by (rewrite length_app; simpl; lia).
  apply elem_of_app. right. left.
Qed.

Lemma node_guard_gemm g :
  NodeProto.op_type g = "Gemm" → node_guard g = true →
  ∃ x gw gb, NodeProto.input g = [x; gw; gb].
Proof.
  unfold node_guard. intros ->. 
  change (expected_inputs_dict !! "Gemm") with (Some 3%nat).
  intros [H _]%andb_prop. apply bool_decide_eq_true in H.
  destruct (NodeProto.input g) as [|x [|gw [|gb [|? ?]]]]; try discriminate.
  by eexists _, _, _.
Qed.

Lemma node_guards_inv nodes :
  node_guards nodes = true →
  ∃ g x gw gb, last nodes = Some g ∧ NodeProto.op_type g = "Gemm" ∧
    NodeProto.input g = [x; gw; gb] ∧
    forallb node_guard (slice_last3 nodes) = true.
Proof.
  unfold node_guards, last_is_gemm. intros [Hl Hall]%andb_prop.
  destruct (last nodes) as [g|] eqn:Hg; [|done].
  apply string_eqb_true in Hl.
  assert (node_guard g = true) as Hgg.
  { rewrite forallb_forall in Hall. apply Hall, list_elem_of_In.
    by apply last_in_slice_last3. }
  destruct (node_guard_gemm g Hl Hgg) as (x & gw & gb & Hin).
  by eexists g, x, gw, gb.
Qed.

Lemma surgery_result_guards model model' :
  surgery_result model model' →
  node_guards (GraphProto.node (ModelProto.graph model)) = true ∧
  weights_guard model = true.
Proof.
  intros [g x gw gb graph_node avgpool o os weights vo vos nodes initializer
            Hg Hop Hin Hguard Hrm Havg Ho Hw Hname Hvo].
  unfold node_guards, last_is_gemm, weights_guard. fold nodes initializer.
  rewrite Hg, Hw, Hin, Hguard, Hop, Hname. split; [done|].
  by apply string_eqb_true.
Qed.

(** ** Runs of the script *)

Lemma read_model_inr f e m :
  read_model f e = inr m ↔ e = Some (RegularFile (OnnxModel m)).
Proof.
  destruct e as [[|[m'|]]|]; simpl; split; intros H; by simplify_eq.
Qed.

Section Runs.

Variable optimize : ModelProto.t -> list string -> exn + ModelProto.t.
Variables name_in name_out : string.

Lemma outcome_inr e model' :
  outcome optimize name_in e = inr model' ↔
  ∃ m0 m1, e = Some (RegularFile (OnnxModel m0)) ∧
    optimize m0 ["eliminate_nop_pad"] = inr m1 ∧ surgery_result m1 model'.
Proof.
  unfold outcome. cbv [mbind result_bind]. split.
  - destruct (read_model name_in e) as [|m0] eqn:Hr; [done|].
    destruct (optimize m0 _) as [|m1] eqn:Ho; [done|].
    intros Hs. apply read_model_inr in Hr. apply surgery_inr in Hs.
    by exists m0, m1.
  - intros (m0 & m1 & -> & Ho & Hs). simpl. rewrite Ho.
    by apply surgery_inr.
Qed.

Lemma run_inr w w' :
  optimize_quantized_mobilenet optimize name_in name_out w = (inr tt, w') →
  ∃ m0 m1 model',
    files w !! name_in = Some (RegularFile (OnnxModel m0)) ∧
    optimize m0 ["eliminate_nop_pad"] = inr m1 ∧
    surgery_result m1 model' ∧
    files w' = <[name_out := RegularFile (OnnxModel model')]> (files w).
Proof.
  intros H.
  destruct (optimize_quantized_mobilenet_spec optimize name_in name_out w)
    as (w1 & Hrun & Hfiles).
  rewrite H in Hrun. injection Hrun as Hres <-.
  destruct (outcome optimize name_in (files w !! name_in)) as [|model'] eqn:Ho;
    [done|].
  apply outcome_inr in Ho as (m0 & m1 & H0 & H1 & Hs).
  by exists m0, m1, model'.
Qed.

Lemma run_ok w m0 m1 model' :
  files w !! name_in = Some (RegularFile (OnnxModel m0)) →
  optimize m0 ["eliminate_nop_pad"] = inr m1 →
  surgery_result m1 model' →
  ∃ w', optimize_quantized_mobilenet optimize name_in name_out w = (inr tt, w') ∧
        files w' = <[name_out := RegularFile (OnnxModel model')]> (files w).
Proof.
  intros H0 H1 Hs.
  destruct (optimize_quantized_mobilenet_spec optimize name_in name_out w)
    as (w1 & Hrun & Hfiles).
  assert (outcome optimize name_in (files w !! name_in) = inr model') as Ho
    by (apply outcome_inr; eauto).
  rewrite Ho in Hrun, Hfiles. by exists w1.
Qed.

Lemma run_inl w w' e : optimize_quantized_mobilenet optimize name_in name_out w = (inl e, w') → files w' = files w.
Proof.
  intros H.
  destruct (optimize_quantized_mobilenet_spec optimize name_in name_out w)
    as (w1 & Hrun & Hfiles).
  rewrite H in Hrun. injection Hrun as Hres <-.
  by destruct (outcome optimize name_in (files w !! name_in)).
Qed.

Lemma run_surgery_inl w m0 m1 e :
  files w !! name_in = Some (RegularFile (OnnxModel m0)) →
  optimize m0 ["eliminate_nop_pad"] = inr m1 →
  surgery m1 = inl e →
  ∃ w', optimize_quantized_mobilenet optimize name_in name_out w = (inl e, w') ∧ files w' = files w.
Proof.
  intros H0 H1 Hs.
  destruct (optimize_quantized_mobilenet_spec optimize name_in name_out w)
    as (w1 & Hrun & Hfiles).
  assert (outcome optimize name_in (files w !! name_in) = inl e) as Ho.
  { unfold outcome. rewrite H0. simpl. cbv [mbind result_bind]. by rewrite H1. }
  rewrite Ho in Hrun, Hfiles. by exists w1.
Qed.

End Runs.

(** ** The removal step *)

Lemma slice_last3_app {A} (pre : list A) a b c :
  slice_last3 (pre ++ [a; b; c]) = [a; b; c].
Proof.
  unfold slice_last3. rewrite length_app. simpl.
  replace (length pre + 3 - 3)%nat with (length pre) by lia.
  apply drop_app_length.
Qed.

Lemma node_guard_intro n k :
  expected_inputs_dict !! NodeProto.op_type n = Some k →
  length (NodeProto.input n) = k →
  length (NodeProto.output n) = 1%nat →
  node_guard n = true.
Proof.
  unfold node_guard. intros -> Hi Ho.
  by rewrite !bool_decide_eq_true_2.
Qed.

(** X15: in a graph whose last three nodes (a Constant node with no input
    and one output, a Reshape node with two inputs and one output, a Gemm
    node with three inputs and one output) are each different from every
    earlier node, as they are when no two nodes write the same output, the
    loop removes these three nodes and no other: it leaves the nodes before
    them, in their order, and a run that completes saves these nodes followed
    by one new node. *)
Theorem X15_fresh_tail_removed_exactly optimize name_in name_out w m0 m1 pre c r g :
  files w !! name_in = Some (RegularFile (OnnxModel m0)) →
  optimize m0 ["eliminate_nop_pad"] = inr m1 →
  GraphProto.node (ModelProto.graph m1) = pre ++ [c; r; g] →
  NodeProto.op_type c = "Constant" →
  length (NodeProto.input c) = 0%nat → length (NodeProto.output c) = 1%nat →
  NodeProto.op_type r = "Reshape" →
  length (NodeProto.input r) = 2%nat → length (NodeProto.output r) = 1%nat →
  NodeProto.op_type g = "Gemm" →
  length (NodeProto.input g) = 3%nat → length (NodeProto.output g) = 1%nat →
  Forall (λ n, n ∉ pre) [c; r; g] →
  (∀ w0, ∃ w1,
     remove_nodes (slice_last3 (GraphProto.node (ModelProto.graph m1)))
       (GraphProto.node (ModelProto.graph m1)) w0 = (inr pre, w1)) ∧
  (∀ w', optimize_quantized_mobilenet optimize name_in name_out w = (inr tt, w') →
     ∃ model' conv,
       files w' !! name_out = Some (RegularFile (OnnxModel model')) ∧
       GraphProto.node (ModelProto.graph model') = pre ++ [conv]).
Proof.
  intros H0 H1 Hnodes Hc Hci Hco Hr Hri Hro Hg Hgi Hgo Hfresh.
  assert (removals (slice_last3 (pre ++ [c; r; g])) (pre ++ [c; r; g]) = inr pre)
    as Hrm.
  { rewrite slice_last3_app. apply removals_inr. split.
    - simpl. rewrite (node_guard_intro c 0), (node_guard_intro r 2),
        (node_guard_intro g 3); try done.
      + by rewrite Hg.
      + by rewrite Hr.
      + by rewrite Hc.
    - apply remove_all_suffix. intros x Hx.
      by apply (proj1 (Forall_forall _ _) Hfresh). }
  split.
  - intros w0. rewrite Hnodes.
    destruct (remove_nodes_spec (slice_last3 (pre ++ [c; r; g]))
                (pre ++ [c; r; g]) w0) as (w1 & Hw1 & _).
    exists w1. by rewrite Hw1, Hrm.
  - intros w' Hrun.
    apply run_inr in Hrun as (m0' & m1' & model' & H0' & H1' & Hs & Hfiles).
    rewrite H0 in H0'. injection H0' as <-. rewrite H1 in H1'. injection H1' as <-.
    destruct Hs as [g' x gw gb graph_node avgpool o os weights vo vos nodes
                      initializer Hg' Hop Hin Hguard Hall Havg Ho Hw Hname Hvo].
    subst nodes. rewrite Hnodes in Hall.
    apply removals_inr in Hrm as [_ Hrm]. rewrite Hrm in Hall.
    injection Hall as <-.
    eexists _, _. split; [by rewrite Hfiles, lookup_insert_eq|done].
Qed.

(** C1: the code does not remove exactly the last three nodes of every
    graph its guards accept.  In [Examples.twice_constant] the last three
    nodes are the Constant, Reshape and Gemm nodes the guards ask for, and a
    node equal to the Constant node is also the first node of the graph.
    [remove] deletes the first node that compares equal, so the loop takes
    out that first node, before the AveragePool node, and leaves the Constant
    node of the tail in: the nodes kept are not the nodes that preceded the
    last three, the last of them is not the AveragePool node, and the new
    Conv node of the saved graph reads the output of the Constant node. *)
Theorem C1_twice_constant_removes_earlier_node :
  GraphProto.node (ModelProto.graph Examples.twice_constant)
    = [Examples.constant; Examples.avgpool "relu"]
        ++ [Examples.constant; Examples.reshape; Examples.gemm] ∧
  reference_optimize Examples.twice_constant ["eliminate_nop_pad"]
    = inr Examples.twice_constant ∧
  node_guards (GraphProto.node (ModelProto.graph Examples.twice_constant)) = true ∧
  fst (remove_nodes
         (slice_last3 (GraphProto.node (ModelProto.graph Examples.twice_constant)))
         (GraphProto.node (ModelProto.graph Examples.twice_constant))
         (Examples.world "model.onnx" Examples.twice_constant))
    = inr [Examples.avgpool "relu"; Examples.constant] ∧
  [Examples.avgpool "relu"; Examples.constant]
    ≠ [Examples.constant; Examples.avgpool "relu"] ∧
  ∃ w' model',
    optimize_quantized_mobilenet reference_optimize "model.onnx" "model_opt.onnx"
      (Examples.world "model.onnx" Examples.twice_constant) = (inr tt, w') ∧
    files w' !! "model_opt.onnx" = Some (RegularFile (OnnxModel model')) ∧
    GraphProto.node (ModelProto.graph model')
      = [Examples.avgpool "relu"; Examples.constant;
         last_conv_fc "shape" "fc_w" "fc_b" "prob"].
Proof.
  split; [by vm_compute|]. split; [by vm_compute|]. split; [by vm_compute|].
  split; [by vm_compute|]. split; [by vm_compute|].
  eexists _, _. split; [vm_compute; reflexivity|].
  split; vm_compute; reflexivity.
Qed.

(** The removal step on the model the optimizer returns for
    [Examples.mobilenet]. *)
Lemma X15_witness :
  (∀ w0, ∃ w1,
     remove_nodes
       (slice_last3 (GraphProto.node (ModelProto.graph Examples.mobilenet_no_pad)))
       (GraphProto.node (ModelProto.graph Examples.mobilenet_no_pad)) w0
     = (inr [Examples.relu; Examples.avgpool "relu"], w1)) ∧
  (∀ w', optimize_quantized_mobilenet reference_optimize "model.onnx" "model_opt.onnx"
           (Examples.world "model.onnx" Examples.mobilenet) = (inr tt, w') →
     ∃ model' conv,
       files w' !! "model_opt.onnx" = Some (RegularFile (OnnxModel model')) ∧
       GraphProto.node (ModelProto.graph model')
         = [Examples.relu; Examples.avgpool "relu"] ++ [conv]).
Proof.
  apply (X15_fresh_tail_removed_exactly reference_optimize "model.onnx" "model_opt.onnx"
           (Examples.world "model.onnx" Examples.mobilenet)
           Examples.mobilenet Examples.mobilenet_no_pad
           [Examples.relu; Examples.avgpool "relu"]
           Examples.constant Examples.reshape Examples.gemm);
    try (vm_compute; reflexivity).
  apply (bool_decide_unpack _). vm_compute. exact I.
Defined.

(** ** The new Conv node *)

Lemma weights_guard_inv model g x gw gb :
  weights_guard model = true →
  last (GraphProto.node (ModelProto.graph model)) = Some g →
  NodeProto.input g = [x; gw; gb] →
  ∃ weights,
    getitem_penultimate (GraphProto.initializer (ModelProto.graph model)) = inr weights ∧
    TensorProto.name weights = gw.
Proof.
  unfold weights_guard. intros H Hg Hin. rewrite Hg in H.
  destruct (getitem_penultimate _) as [|weights]; [done|]. rewrite Hin in H.
  apply string_eqb_true in H. by exists weights.
Qed.

(** The conditions under which the surgery succeeds, from the guards. *)
Lemma surgery_result_intro model graph_node avgpool o os vo vos :
  node_guards (GraphProto.node (ModelProto.graph model)) = true →
  weights_guard model = true →
  remove_all (slice_last3 (GraphProto.node (ModelProto.graph model)))
    (GraphProto.node (ModelProto.graph model)) = Some graph_node →
  last graph_node = Some avgpool →
  NodeProto.output avgpool = o :: os →
  GraphProto.output (ModelProto.graph model) = vo :: vos →
  ∃ g x gw gb,
    last (GraphProto.node (ModelProto.graph model)) = Some g ∧
    NodeProto.input g = [x; gw; gb] ∧
    surgery_result model
      (with_graph model
         (graph_node ++ [last_conv_fc o gw gb (ValueInfoProto.name vo)])
         (alter (extend_dims [1; 1])
            (length (GraphProto.initializer (ModelProto.graph model)) - 2)%nat
            (GraphProto.initializer (ModelProto.graph model)))).
Proof.
  intros Hng Hwg Hrm Havg Ho Hvo.
  apply node_guards_inv in Hng as (g & x & gw & gb & Hg & Hop & Hin & Hall).
  destruct (weights_guard_inv model g x gw gb Hwg Hg Hin) as (weights & Hw & Hname).
  exists g, x, gw, gb. split; [done|]. split; [done|].
  by eapply Surgery_result.
Qed.

(** C2 (amended): for a model that passes the guards on the last three nodes
    and on the second-to-last initializer, in which a node with at least one
    output is left as the last one by the removals, and which declares at
    least one graph output, [optimize_quantized_mobilenet] completes and the
    saved graph is the nodes left by the removals followed by exactly one new
    node: the Conv node named last_conv_fc, with kernel_shape [1,1], strides
    [1,1] and pads [0,0,0,0], whose inputs are the first output of the node
    that was last after the removals and the weights and bias inputs of the
    removed Gemm node, and whose output is the name of the first graph
    output. *)
Theorem C2_appends_last_conv_fc optimize name_in name_out w m0 m1
    graph_node avgpool o os vo vos :
  files w !! name_in = Some (RegularFile (OnnxModel m0)) →
  optimize m0 ["eliminate_nop_pad"] = inr m1 →
  node_guards (GraphProto.node (ModelProto.graph m1)) = true →
  weights_guard m1 = true →
  remove_all (slice_last3 (GraphProto.node (ModelProto.graph m1)))
    (GraphProto.node (ModelProto.graph m1)) = Some graph_node →
  last graph_node = Some avgpool →
  NodeProto.output avgpool = o :: os →
  GraphProto.output (ModelProto.graph m1) = vo :: vos →
  ∃ w' model' g x gw gb,
    optimize_quantized_mobilenet optimize name_in name_out w = (inr tt, w') ∧
    files w' !! name_out = Some (RegularFile (OnnxModel model')) ∧
    last (GraphProto.node (ModelProto.graph m1)) = Some g ∧
    NodeProto.input g = [x; gw; gb] ∧
    GraphProto.node (ModelProto.graph model')
      = graph_node ++
          [ {| NodeProto.input := [o; gw; gb];
               NodeProto.output := [ValueInfoProto.name vo];
               NodeProto.name := "last_conv_fc";
               NodeProto.op_type := "Conv";
               NodeProto.attribute :=
                 [AttributeProto.mk "kernel_shape" (AttributeProto.INTS [1; 1]);
                  AttributeProto.mk "pads" (AttributeProto.INTS [0; 0; 0; 0]);
                  AttributeProto.mk "strides" (AttributeProto.INTS [1; 1])];
               NodeProto.doc_string := "" |} ].
Proof.
  intros H0 H1 Hng Hwg Hrm Havg Ho Hvo.
  destruct (surgery_result_intro m1 graph_node avgpool o os vo vos)
    as (g & x & gw & gb & Hg & Hin & Hs); try done.
  destruct (run_ok optimize name_in name_out w m0 m1 _ H0 H1 Hs) as (w' & Hrun & Hf).
  eexists w', _, g, x, gw, gb. split; [done|].
  split; [by rewrite Hf, lookup_insert_eq|]. done.
Qed.

(** C2 as stated fails: [Examples.only_fc] passes every guard, but nothing is
    left in the graph after the removals, so the script stops with an
    IndexError where it reads the last node and appends and saves nothing. *)
Lemma C2_counterexample_only_fc :
  reference_optimize Examples.only_fc ["eliminate_nop_pad"] = inr Examples.only_fc ∧
  node_guards (GraphProto.node (ModelProto.graph Examples.only_fc)) = true ∧
  weights_guard Examples.only_fc = true ∧
  ∃ w', optimize_quantized_mobilenet reference_optimize "model.onnx" "model_opt.onnx"
          (Examples.world "model.onnx" Examples.only_fc) = (inl IndexError, w') ∧
        files w' !! "model_opt.onnx" = None.
Proof.
  repeat split; try by vm_compute.
  eexists. split; [vm_compute; reflexivity|]. by vm_compute.
Qed.

(** The run on [Examples.mobilenet]. *)
Lemma C2_witness :
  ∃ w' model' g x gw gb,
    optimize_quantized_mobilenet reference_optimize "model.onnx" "model_opt.onnx"
      (Examples.world "model.onnx" Examples.mobilenet) = (inr tt, w') ∧
    files w' !! "model_opt.onnx" = Some (RegularFile (OnnxModel model')) ∧
    last (GraphProto.node (ModelProto.graph Examples.mobilenet_no_pad)) = Some g ∧
    NodeProto.input g = [x; gw; gb] ∧
    GraphProto.node (ModelProto.graph model')
      = [Examples.relu; Examples.avgpool "relu"] ++
          [ {| NodeProto.input := ["pooled"; gw; gb];
               NodeProto.output := [ValueInfoProto.name Examples.prob];
               NodeProto.name := "last_conv_fc";
               NodeProto.op_type := "Conv";
               NodeProto.attribute :=
                 [AttributeProto.mk "kernel_shape" (AttributeProto.INTS [1; 1]);
                  AttributeProto.mk "pads" (AttributeProto.INTS [0; 0; 0; 0]);
                  AttributeProto.mk "strides" (AttributeProto.INTS [1; 1])];
               NodeProto.doc_string := "" |} ].
Proof.
  apply (C2_appends_last_conv_fc reference_optimize "model.onnx" "model_opt.onnx"
           (Examples.world "model.onnx" Examples.mobilenet)
           Examples.mobilenet Examples.mobilenet_no_pad
           [Examples.relu; Examples.avgpool "relu"] (Examples.avgpool "relu")
           "pooled" [] Examples.prob []);
    vm_compute; reflexivity.
Defined.

(** ** The Pad node, the weights and the guards *)

Lemma forallb_sublist {A} (f : A → bool) (l1 l2 : list A) :
  l1 `sublist_of` l2 → forallb f l2 = true → forallb f l1 = true.
Proof.
  rewrite !forallb_forall. intros Hsub H x Hx.
  apply H, list_elem_of_In. eapply elem_of_sublist; [|done].
  by apply list_elem_of_In.
Qed.

Lemma last_conv_fc_not_pad o gw gb out : is_nop_pad (last_conv_fc o gw gb out) = false.
Proof. reflexivity. Qed.

(** X16: the surgery brings no no-op Pad node into the graph.  The removals
    work on the model that the optimizer returns for the one pass
    eliminate_nop_pad, and a run that completes saves nodes of that model
    followed by the new Conv node; so when that model has no no-op Pad node,
    the saved graph has none.  Whether the optimizer leaves one is the
    optimizer's doing, not the script's. *)
Theorem X16_surgery_adds_no_pad optimize name_in name_out w w' m0 m1 :
  files w !! name_in = Some (RegularFile (OnnxModel m0)) →
  optimize m0 ["eliminate_nop_pad"] = inr m1 →
  no_nop_pad m1 = true →
  optimize_quantized_mobilenet optimize name_in name_out w = (inr tt, w') →
  ∃ model' graph_node conv,
    remove_all (slice_last3 (GraphProto.node (ModelProto.graph m1)))
      (GraphProto.node (ModelProto.graph m1)) = Some graph_node ∧
    files w' !! name_out = Some (RegularFile (OnnxModel model')) ∧
    GraphProto.node (ModelProto.graph model') = graph_node ++ [conv] ∧
    no_nop_pad model' = true.
Proof.
  intros H0 H1 Hpad Hrun.
  apply run_inr in Hrun as (m0' & m1' & model' & H0' & H1' & Hs & Hfiles).
  rewrite H0 in H0'. injection H0' as <-. rewrite H1 in H1'. injection H1' as <-.
  destruct Hs as [g x gw gb graph_node avgpool o os weights vo vos nodes
                    initializer Hg Hop Hin Hguard Hall Havg Ho Hw Hname Hvo].
  eexists _, graph_node, _. split; [done|].
  split; [by rewrite Hfiles, lookup_insert_eq|]. split; [reflexivity|].
  unfold no_nop_pad in *. simpl. fold nodes in Hpad.
  rewrite forallb_app. simpl. rewrite andb_true_r.
  eapply forallb_sublist; [|done]. by eapply remove_all_sublist.
Qed.

(** The run on [Examples.mobilenet], whose Pad node the optimizer drops. *)
Lemma X16_witness :
  ∃ model' graph_node conv,
    remove_all
      (slice_last3 (GraphProto.node (ModelProto.graph Examples.mobilenet_no_pad)))
      (GraphProto.node (ModelProto.graph Examples.mobilenet_no_pad)) = Some graph_node ∧
    files (optimize_quantized_mobilenet reference_optimize "model.onnx" "model_opt.onnx"
             (Examples.world "model.onnx" Examples.mobilenet)).2 !! "model_opt.onnx"
      = Some (RegularFile (OnnxModel model')) ∧
    GraphProto.node (ModelProto.graph model') = graph_node ++ [conv] ∧
    no_nop_pad model' = true.
Proof.
  apply (X16_surgery_adds_no_pad reference_optimize "model.onnx" "model_opt.onnx"
           (Examples.world "model.onnx" Examples.mobilenet) _
           Examples.mobilenet Examples.mobilenet_no_pad);
    vm_compute; reflexivity.
Defined.

Lemma getitem_penultimate_inr {A} (l : list A) x :
  getitem_penultimate l = inr x ↔ (2 ≤ length l)%nat ∧ l !! (length l - 2)%nat = Some x.
Proof.
  unfold getitem_penultimate.
  destruct (2 <=? length l)%nat eqn:Hle.
  - apply Nat.leb_le in Hle.
    destruct (l !! (length l - 2)%nat); split; intros H; try done.
    + by simplify_eq.
    + destruct H as [_ H]. by simplify_eq.
    + by destruct H.
  - apply Nat.leb_gt in Hle. split; [done|]. intros [? _]. lia.
Qed.

(** C4 (amended): for a model that passes the guards on the last three nodes
    and on the second-to-last initializer, and on which the script runs to
    completion (a node with an output is last after the removals, and there
    is a graph output), the saved model has the dims of the second-to-last
    initializer extended by exactly two trailing ones, its other fields
    (raw data included) as they were, and every other initializer
    unchanged. *)
Theorem C4_extends_weight_dims optimize name_in name_out w m0 m1
    graph_node avgpool o os vo vos :
  files w !! name_in = Some (RegularFile (OnnxModel m0)) →
  optimize m0 ["eliminate_nop_pad"] = inr m1 →
  node_guards (GraphProto.node (ModelProto.graph m1)) = true →
  weights_guard m1 = true →
  remove_all (slice_last3 (GraphProto.node (ModelProto.graph m1)))
    (GraphProto.node (ModelProto.graph m1)) = Some graph_node →
  last graph_node = Some avgpool →
  NodeProto.output avgpool = o :: os →
  GraphProto.output (ModelProto.graph m1) = vo :: vos →
  ∃ w' model' weights,
    optimize_quantized_mobilenet optimize name_in name_out w = (inr tt, w') ∧
    files w' !! name_out = Some (RegularFile (OnnxModel model')) ∧
    GraphProto.initializer (ModelProto.graph m1)
      !! (length (GraphProto.initializer (ModelProto.graph m1)) - 2)%nat = Some weights ∧
    GraphProto.initializer (ModelProto.graph model')
      !! (length (GraphProto.initializer (ModelProto.graph m1)) - 2)%nat
      = Some {| TensorProto.dims := TensorProto.dims weights ++ [1; 1];
                TensorProto.data_type := TensorProto.data_type weights;
                TensorProto.name := TensorProto.name weights;
                TensorProto.raw_data := TensorProto.raw_data weights |} ∧
    length (GraphProto.initializer (ModelProto.graph model'))
      = length (GraphProto.initializer (ModelProto.graph m1)) ∧
    ∀ i, i ≠ (length (GraphProto.initializer (ModelProto.graph m1)) - 2)%nat →
         GraphProto.initializer (ModelProto.graph model') !! i
         = GraphProto.initializer (ModelProto.graph m1) !! i.
Proof.
  intros H0 H1 Hng Hwg Hrm Havg Ho Hvo.
  destruct (surgery_result_intro m1 graph_node avgpool o os vo vos)
    as (g & x & gw & gb & Hg & Hin & Hs); try done.
  destruct (weights_guard_inv m1 g x gw gb Hwg Hg Hin) as (weights & Hw & _).
  apply getitem_penultimate_inr in Hw as [_ Hw].
  destruct (run_ok optimize name_in name_out w m0 m1 _ H0 H1 Hs) as (w' & Hrun & Hf).
  eexists w', _, weights. split; [done|].
  split; [by rewrite Hf, lookup_insert_eq|]. simpl.
  split; [done|]. split; [by rewrite list_lookup_alter_eq, Hw|].
  split; [apply length_alter|].
  intros i Hi. by apply list_lookup_alter_ne.
Qed.

(** C4 as stated fails: in [Examples.only_fc] the guards pass and the
    second-to-last initializer is named as the weights input of the Gemm
    node, but the script stops with an IndexError before it reaches the
    initializer, and no model with extended dims is saved. *)
Lemma C4_counterexample_only_fc :
  node_guards (GraphProto.node (ModelProto.graph Examples.only_fc)) = true ∧
  weights_guard Examples.only_fc = true ∧
  surgery Examples.only_fc = inl IndexError ∧
  (optimize_quantized_mobilenet reference_optimize "model.onnx" "model_opt.onnx"
     (Examples.world "model.onnx" Examples.only_fc)).1 = inl IndexError ∧
  files (optimize_quantized_mobilenet reference_optimize "model.onnx" "model_opt.onnx"
           (Examples.world "model.onnx" Examples.only_fc)).2
    = files (Examples.world "model.onnx" Examples.only_fc).
Proof. repeat split; by vm_compute. Qed.

(** The run on [Examples.mobilenet]: of its three initializers, the second
    is the one extended. *)
Lemma C4_witness :
  ∃ w' model' weights,
    optimize_quantized_mobilenet reference_optimize "model.onnx" "model_opt.onnx"
      (Examples.world "model.onnx" Examples.mobilenet) = (inr tt, w') ∧
    files w' !! "model_opt.onnx" = Some (RegularFile (OnnxModel model')) ∧
    [Examples.conv_w; Examples.fc_w; Examples.fc_b] !! 1%nat = Some weights ∧
    GraphProto.initializer (ModelProto.graph model') !! 1%nat
      = Some {| TensorProto.dims := TensorProto.dims weights ++ [1; 1];
                TensorProto.data_type := TensorProto.data_type weights;
                TensorProto.name := TensorProto.name weights;
                TensorProto.raw_data := TensorProto.raw_data weights |} ∧
    length (GraphProto.initializer (ModelProto.graph model')) = 3%nat ∧
    ∀ i, i ≠ 1%nat →
         GraphProto.initializer (ModelProto.graph model') !! i
         = [Examples.conv_w; Examples.fc_w; Examples.fc_b] !! i.
Proof.
  apply (C4_extends_weight_dims reference_optimize "model.onnx" "model_opt.onnx"
           (Examples.world "model.onnx" Examples.mobilenet)
           Examples.mobilenet Examples.mobilenet_no_pad
           [Examples.relu; Examples.avgpool "relu"] (Examples.avgpool "relu")
           "pooled" [] Examples.prob []);
    vm_compute; reflexivity.
Defined.

(** C5: when a guard fails on the model handed over by the optimizer (the
    last node is not a Gemm node, or one of the last three nodes does not have
    the number of inputs its operator expects and exactly one output, or the
    second-to-last initializer is not named as the Gemm weights input), the
    script ends with an exception and the files are as they were: nothing has
    been written to name_out. *)
Theorem C5_guard_failure_writes_nothing optimize name_in name_out w m0 m1 :
  files w !! name_in = Some (RegularFile (OnnxModel m0)) →
  optimize m0 ["eliminate_nop_pad"] = inr m1 →
  last_is_gemm (GraphProto.node (ModelProto.graph m1)) = false ∨
  (∃ n, n ∈ slice_last3 (GraphProto.node (ModelProto.graph m1)) ∧
        node_guard n = false) ∨
  weights_guard m1 = false →
  ∃ e w',
    optimize_quantized_mobilenet optimize name_in name_out w = (inl e, w') ∧
    files w' = files w.
Proof.
  intros H0 H1 Hfail.
  destruct (surgery m1) as [e|model'] eqn:Hs.
  - exists e. by eapply run_surgery_inl.
  - exfalso. apply surgery_inr, surgery_result_guards in Hs as [Hng Hwg].
    unfold node_guards in Hng. apply andb_prop in Hng as [Hlast Hall].
    destruct Hfail as [Hf|[(n & Hn & Hf)|Hf]]; [congruence| |congruence].
    rewrite forallb_forall in Hall. apply list_elem_of_In, Hall in Hn. congruence.
Qed.

(** A Constant node with an input among the last three nodes. *)
Lemma C5_witness :
  ∃ e w',
    optimize_quantized_mobilenet reference_optimize "model.onnx" "model_opt.onnx"
      (Examples.world "model.onnx" Examples.flatten_after_bad_constant) = (inl e, w') ∧
    files w' = files (Examples.world "model.onnx" Examples.flatten_after_bad_constant).
Proof.
  apply (C5_guard_failure_writes_nothing reference_optimize "model.onnx" "model_opt.onnx"
           (Examples.world "model.onnx" Examples.flatten_after_bad_constant)
           Examples.flatten_after_bad_constant Examples.flatten_after_bad_constant);
    [vm_compute; reflexivity | vm_compute; reflexivity |].
  right. left. exists (Examples.node "Constant" ["relu"] ["shape"]).
  split; [|vm_compute; reflexivity].
  apply (bool_decide_unpack _). vm_compute. exact I.
Defined.

(** ** [main], and what a run depends on *)

(** The exceptions of the surgery are those of its checks and of the
    container operations, never a RuntimeError. *)
Lemma removals_not_RuntimeError slice : ∀ g e,
  removals slice g = inl e → is_RuntimeError e = false.
Proof.
  induction slice as [|n slice IH]; intros g e; simpl; [done|].
  unfold check_node, dict_getitem, repeated_remove. cbv [mbind result_bind check].
  destruct (expected_inputs_dict !! _); [|by intros [= <-]].
  destruct (bool_decide _); [|by intros [= <-]].
  destruct (bool_decide _); [|by intros [= <-]].
  destruct (remove_first n g); [apply IH|by intros [= <-]].
Qed.

Lemma surgery_not_RuntimeError model e :
  surgery model = inl e → is_RuntimeError e = false.
Proof.
  unfold surgery, getitem_last, getitem_first, getitem_penultimate, unpack3.
  cbv [mbind result_bind check].
  destruct (last _); [|by intros [= <-]].
  destruct (String.eqb _ _); [|by intros [= <-]].
  destruct (NodeProto.input _) as [|? [|? [|? [|? ?]]]]; try by intros [= <-].
  destruct (removals _ _) as [e'|graph_node] eqn:Hrm.
  { intros [= <-]. by eapply removals_not_RuntimeError. }
  destruct (last graph_node) as [avgpool|]; [|by intros [= <-]].
  destruct (NodeProto.output avgpool); [by intros [= <-]|].
  destruct (2 <=? _)%nat; [|by intros [= <-]].
  destruct (_ !! _); [|by intros [= <-]].
  destruct (String.eqb _ _); [|by intros [= <-]].
  destruct (GraphProto.output _); [by intros [= <-]|done].
Qed.

Lemma main_unfold optimize w :
  main optimize w =
    if negb (isdir (files w) "./Quantized MobileNet") then
      (inl (RuntimeError (CouldNotFindDirectory "./Quantized MobileNet")), w)
    else if negb (isfile (files w) "./Quantized MobileNet/mobilenet_sym_no_bn.onnx") then
      (inl (RuntimeError (CouldNotFindFile "./Quantized MobileNet"
                            "./Quantized MobileNet/mobilenet_sym_no_bn.onnx")), w)
    else optimize_quantized_mobilenet optimize
           "./Quantized MobileNet/mobilenet_sym_no_bn.onnx"
           "mobilenet_quantized_opt.onnx" w.
Proof.
  unfold main. cbv [mbind Py_bind path_isdir path_isfile raise].
  change (path_join "./Quantized MobileNet" "mobilenet_sym_no_bn.onnx")
    with "./Quantized MobileNet/mobilenet_sym_no_bn.onnx".
  destruct (isdir _ _); [|done]. simpl.
  by destruct (isfile _ _).
Qed.

(** C6: [main] looks only at the directory ./Quantized MobileNet and at the
    file mobilenet_sym_no_bn.onnx in it.  When the directory or the file is
    missing it raises RuntimeError and does nothing else; otherwise it is the
    call of [optimize_quantized_mobilenet] on that file and on
    mobilenet_quantized_opt.onnx.  As that call raises no RuntimeError unless
    the optimizer does, [main] raises RuntimeError exactly when the directory
    or the file is missing. *)
Theorem C6_main_hard_coded_paths optimize w :
  (isdir (files w) "./Quantized MobileNet" = false ∨
   isfile (files w) "./Quantized MobileNet/mobilenet_sym_no_bn.onnx" = false →
   ∃ r, main optimize w = (inl (RuntimeError r), w)) ∧
  (isdir (files w) "./Quantized MobileNet" = true →
   isfile (files w) "./Quantized MobileNet/mobilenet_sym_no_bn.onnx" = true →
   main optimize w =
     optimize_quantized_mobilenet optimize
       "./Quantized MobileNet/mobilenet_sym_no_bn.onnx"
       "mobilenet_quantized_opt.onnx" w) ∧
  ((∀ m0 e,
      files w !! "./Quantized MobileNet/mobilenet_sym_no_bn.onnx"
        = Some (RegularFile (OnnxModel m0)) →
      optimize m0 ["eliminate_nop_pad"] = inl e → is_RuntimeError e = false) →
   ((∃ r w', main optimize w = (inl (RuntimeError r), w')) ↔
    (isdir (files w) "./Quantized MobileNet" = false ∨
     isfile (files w) "./Quantized MobileNet/mobilenet_sym_no_bn.onnx" = false))).
Proof.
  assert (isdir (files w) "./Quantized MobileNet" = false ∨
          isfile (files w) "./Quantized MobileNet/mobilenet_sym_no_bn.onnx" = false →
          ∃ r, main optimize w = (inl (RuntimeError r), w)) as Hmissing.
  { rewrite main_unfold. intros [Hd|Hf].
    - rewrite Hd. by eexists.
    - destruct (isdir _ _); simpl; [|by eexists]. rewrite Hf. by eexists. }
  split; [done|]. split.
  { intros Hd Hf. by rewrite main_unfold, Hd, Hf. }
  intros Hopt. split.
  - intros (r & w' & Hmain).
    destruct (isdir _ _) eqn:Hd; [|by left].
    destruct (isfile _ _) eqn:Hf; [|by right].
    exfalso. rewrite main_unfold, Hd, Hf in Hmain. simpl in Hmain.
    destruct (optimize_quantized_mobilenet_spec optimize
                "./Quantized MobileNet/mobilenet_sym_no_bn.onnx"
                "mobilenet_quantized_opt.onnx" w) as (w1 & Hrun & _).
    rewrite Hmain in Hrun. injection Hrun as Hres _.
    unfold outcome in Hres. cbv [mbind result_bind] in Hres.
    destruct (read_model _ _) as [e0|m0] eqn:Hread.
    { destruct (files w !! _) as [[|[|]]|]; simpl in Hread; by simplify_eq. }
    apply read_model_inr in Hread.
    destruct (optimize m0 _) as [e1|m1] eqn:Ho.
    { injection Hres as <-. by specialize (Hopt m0 _ Hread Ho). }
    destruct (surgery m1) as [e2|model'] eqn:Hs; [|done].
    injection Hres as <-. by apply surgery_not_RuntimeError in Hs.
  - intros H. destruct (Hmissing H) as [r Hr]. by exists r, w.
Qed.

(** [main] in a world that has the directory and the file. *)
Lemma C6_witness :
  (isdir (files (Examples.main_world Examples.mobilenet)) "./Quantized MobileNet" = false ∨
   isfile (files (Examples.main_world Examples.mobilenet))
     "./Quantized MobileNet/mobilenet_sym_no_bn.onnx" = false →
   ∃ r, main reference_optimize (Examples.main_world Examples.mobilenet)
        = (inl (RuntimeError r), Examples.main_world Examples.mobilenet)) ∧
  main reference_optimize (Examples.main_world Examples.mobilenet) =
    optimize_quantized_mobilenet reference_optimize
      "./Quantized MobileNet/mobilenet_sym_no_bn.onnx"
      "mobilenet_quantized_opt.onnx" (Examples.main_world Examples.mobilenet) ∧
  ((∃ r w', main reference_optimize (Examples.main_world Examples.mobilenet)
            = (inl (RuntimeError r), w')) ↔
   (isdir (files (Examples.main_world Examples.mobilenet)) "./Quantized MobileNet" = false ∨
    isfile (files (Examples.main_world Examples.mobilenet))
      "./Quantized MobileNet/mobilenet_sym_no_bn.onnx" = false)).
Proof.
  destruct (C6_main_hard_coded_paths reference_optimize
              (Examples.main_world Examples.mobilenet)) as (H1 & H2 & H3).
  split; [exact H1|]. split.
  - apply H2; vm_compute; reflexivity.
  - apply H3. intros m0 e _. unfold reference_optimize.
    destruct (bool_decide _); discriminate.
Defined.

(** C7: the result of a run is a function of what is found at name_in alone.
    Two runs that find the same content there end in the same way; when they
    complete they have saved the same model to name_out, and when they raise
    they have written nothing.  No other file is touched. *)
Theorem C7_depends_only_on_input optimize name_in name_out w1 w2 :
  files w1 !! name_in = files w2 !! name_in →
  (optimize_quantized_mobilenet optimize name_in name_out w1).1
    = (optimize_quantized_mobilenet optimize name_in name_out w2).1 ∧
  ((optimize_quantized_mobilenet optimize name_in name_out w1).1 = inr tt →
   ∃ model',
     files (optimize_quantized_mobilenet optimize name_in name_out w1).2
       = <[name_out := RegularFile (OnnxModel model')]> (files w1) ∧
     files (optimize_quantized_mobilenet optimize name_in name_out w2).2
       = <[name_out := RegularFile (OnnxModel model')]> (files w2)) ∧
  (∀ e, (optimize_quantized_mobilenet optimize name_in name_out w1).1 = inl e →
   files (optimize_quantized_mobilenet optimize name_in name_out w1).2 = files w1 ∧
   files (optimize_quantized_mobilenet optimize name_in name_out w2).2 = files w2).
Proof.
  intros Hin.
  destruct (optimize_quantized_mobilenet_spec optimize name_in name_out w1)
    as (w1' & -> & Hf1).
  destruct (optimize_quantized_mobilenet_spec optimize name_in name_out w2)
    as (w2' & -> & Hf2).
  rewrite <-Hin in Hf2 |- *. simpl.
  destruct (outcome optimize name_in (files w1 !! name_in)) as [e|model']; simpl.
  - split; [done|]. split; [done|]. by intros _ _.
  - split; [done|]. split; [|done]. intros _. by exists model'.
Qed.

(** Two worlds that differ in another file and in what has been printed. *)
Lemma C7_witness :
  (optimize_quantized_mobilenet reference_optimize "model.onnx" "model_opt.onnx"
     (Examples.world "model.onnx" Examples.mobilenet)).1
    = (optimize_quantized_mobilenet reference_optimize "model.onnx" "model_opt.onnx"
         {| files := <["other.onnx" := RegularFile Unparsable]>
                       (files (Examples.world "model.onnx" Examples.mobilenet));
            stdout := [Done] |}).1.
Proof.
  apply (C7_depends_only_on_input reference_optimize "model.onnx" "model_opt.onnx"
           (Examples.world "model.onnx" Examples.mobilenet)
           {| files := <["other.onnx" := RegularFile Unparsable]>
                         (files (Examples.world "model.onnx" Examples.mobilenet));
              stdout := [Done] |}).
  vm_compute. reflexivity.
Defined.

(** ** The exceptions of the removal loop *)

(** The nodes of the slice that pass their checks are removed one after the
    other, and the loop goes on with the rest of the slice. *)
Lemma removals_app ok : ∀ rest g,
  forallb node_guard ok = true → ok ++ rest ⊆+ g →
  ∃ g', remove_all ok g = Some g' ∧ removals (ok ++ rest) g = removals rest g'.
Proof.
  induction ok as [|n ok IH]; intros rest g Hok Hsub; simpl in *.
  - by exists g.
  - apply andb_prop in Hok as [Hn Hok].
    apply check_node_inr in Hn. rewrite Hn.
    apply submseteq_cons_l in Hsub as (k & Hk & Hsub).
    destruct (remove_first_Some n g) as (g1 & Hg1 & Hp).
    { rewrite Hk. left. }
    unfold repeated_remove. cbv [mbind result_bind]. rewrite Hg1.
    apply IH; [done|].
    rewrite Hk in Hp. apply Permutation_cons_inv in Hp. by rewrite <-Hp.
Qed.

(** C8 (amended): when the last node of the model handed over by the
    optimizer is a Gemm node with exactly three inputs, and the first of the
    last three nodes not to pass its checks is one whose op_type is not a key
    of the expected-inputs dictionary, the script ends with the KeyError of
    the dictionary lookup, not with an AssertionError, and writes nothing. *)
Theorem C8_unknown_op_type_KeyError optimize name_in name_out w m0 m1 g ok n rest :
  files w !! name_in = Some (RegularFile (OnnxModel m0)) →
  optimize m0 ["eliminate_nop_pad"] = inr m1 →
  last (GraphProto.node (ModelProto.graph m1)) = Some g →
  NodeProto.op_type g = "Gemm" →
  length (NodeProto.input g) = 3%nat →
  slice_last3 (GraphProto.node (ModelProto.graph m1)) = ok ++ n :: rest →
  forallb node_guard ok = true →
  expected_inputs_dict !! NodeProto.op_type n = None →
  ∃ w',
    optimize_quantized_mobilenet optimize name_in name_out w
      = (inl (KeyError (NodeProto.op_type n)), w') ∧
    files w' = files w.
Proof.
  intros H0 H1 Hg Hop Hlen Hslice Hok Hkey.
  eapply run_surgery_inl; [done..|].
  unfold surgery. cbv [mbind result_bind check].
  apply getitem_last_inr in Hg. rewrite Hg.
  apply string_eqb_true in Hop. rewrite Hop.
  destruct (NodeProto.input g) as [|x [|gw [|gb [|? ?]]]]; try discriminate.
  simpl. rewrite Hslice.
  destruct (removals_app ok (n :: rest) (GraphProto.node (ModelProto.graph m1)))
    as (g' & _ & ->); [done| |].
  { rewrite <-Hslice. apply sublist_submseteq, sublist_drop. }
  simpl. unfold check_node, dict_getitem. cbv [mbind result_bind].
  by rewrite Hkey.
Qed.

(** C8 as stated fails: the last node of [Examples.flatten_after_bad_constant]
    is a Gemm node and a Flatten node is among the last three, but the
    Constant node before the Flatten node has an input, and the script ends
    with the AssertionError of the input count. *)
Lemma C8_counterexample_assertion_first :
  reference_optimize Examples.flatten_after_bad_constant ["eliminate_nop_pad"]
    = inr Examples.flatten_after_bad_constant ∧
  last_is_gemm (GraphProto.node (ModelProto.graph Examples.flatten_after_bad_constant))
    = true ∧
  (Examples.node "Flatten" ["pooled"] ["flat"]
     ∈ slice_last3
         (GraphProto.node (ModelProto.graph Examples.flatten_after_bad_constant))) ∧
  expected_inputs_dict !! "Flatten" = None ∧
  (optimize_quantized_mobilenet reference_optimize "model.onnx" "model_opt.onnx"
     (Examples.world "model.onnx" Examples.flatten_after_bad_constant)).1
    = inl (AssertionError (ExpectedInputs 0 "Constant" 1)).
Proof.
  split; [by vm_compute|]. split; [by vm_compute|].
  split; [apply (bool_decide_unpack _); by vm_compute|].
  split; by vm_compute.
Qed.

(** A Flatten node as the first of the last three nodes. *)
Lemma C8_witness :
  ∃ w',
    optimize_quantized_mobilenet reference_optimize "model.onnx" "model_opt.onnx"
      (Examples.world "model.onnx" Examples.flatten_first)
      = (inl (KeyError "Flatten"), w') ∧
    files w' = files (Examples.world "model.onnx" Examples.flatten_first).
Proof.
  apply (C8_unknown_op_type_KeyError reference_optimize "model.onnx" "model_opt.onnx"
           (Examples.world "model.onnx" Examples.flatten_first)
           Examples.flatten_first Examples.flatten_first Examples.gemm
           [] (Examples.node "Flatten" ["pooled"] ["flat0"])
           [Examples.reshape; Examples.gemm]);
    vm_compute; reflexivity.
Defined.

(** C9: when the last node is a Gemm node, the unpacking of its inputs into
    three names raises ValueError for any number of inputs other than three,
    before the loop has started (nothing but the first line has been
    printed); so when the loop comes to that node it has three inputs, the
    number the dictionary gives for Gemm, and the body of the loop never
    raises the input-count assertion for it. *)
Theorem C9_gemm_input_count_assertion_holds optimize name_in name_out w m0 m1 g :
  files w !! name_in = Some (RegularFile (OnnxModel m0)) →
  optimize m0 ["eliminate_nop_pad"] = inr m1 →
  last (GraphProto.node (ModelProto.graph m1)) = Some g →
  NodeProto.op_type g = "Gemm" →
  (length (NodeProto.input g) ≠ 3%nat →
   optimize_quantized_mobilenet optimize name_in name_out w
     = (inl ValueError,
        {| files := files w; stdout := stdout w ++ [Reading name_in] |})) ∧
  (length (NodeProto.input g) = 3%nat →
   expected_inputs_dict !! NodeProto.op_type g = Some (length (NodeProto.input g)) ∧
   ∀ graph_node w0 w1 expected_inputs op_type actual_inputs,
     remove_node g graph_node w0
       ≠ (inl (AssertionError (ExpectedInputs expected_inputs op_type actual_inputs)),
          w1)).
Proof.
  intros H0 H1 Hg Hop. split.
  - intros Hlen. unfold optimize_quantized_mobilenet.
    cbv [mbind Py_bind print onnx_load lift raise mret Py_ret py_assert]. simpl.
    rewrite H0. simpl. rewrite H1.
    apply getitem_last_inr in Hg. rewrite Hg.
    apply string_eqb_true in Hop. rewrite Hop.
    by destruct (NodeProto.input g) as [|x [|gw [|gb [|? ?]]]].
  - intros Hlen.
    assert (expected_inputs_dict !! NodeProto.op_type g
            = Some (length (NodeProto.input g))) as Hdict by by rewrite Hop, Hlen.
    split; [done|]. intros graph_node w0 w1 k op a.
    unfold remove_node, dict_getitem.
    cbv [mbind Py_bind print lift raise mret Py_ret py_assert].
    rewrite Hdict, bool_decide_eq_true_2 by done.
    destruct (bool_decide _); [|done]. simpl.
    unfold repeated_remove. by destruct (remove_first g graph_node).
Qed.

(** A Gemm node with two inputs as the last node. *)
Lemma C9_witness :
  optimize_quantized_mobilenet reference_optimize "model.onnx" "model_opt.onnx"
    (Examples.world "model.onnx" Examples.gemm_without_bias)
  = (inl ValueError,
     {| files := files (Examples.world "model.onnx" Examples.gemm_without_bias);
        stdout := [Reading "model.onnx"] |}).
Proof.
  apply (C9_gemm_input_count_assertion_holds reference_optimize
           "model.onnx" "model_opt.onnx"
           (Examples.world "model.onnx" Examples.gemm_without_bias)
           Examples.gemm_without_bias Examples.gemm_without_bias
           (Examples.node "Gemm" ["flat"; "fc_w"] ["prob"]));
    vm_compute; congruence.
Defined.

(** ** What a run leaves unchanged *)

Lemma slice_last3_take {A} (l : list A) :
  take (length l - 3) l ++ slice_last3 l = l.
Proof. apply take_drop. Qed.

(** X17: what a run that completes changes, relative to the model returned
    by the optimizer.  It writes name_out and no other file.  The saved node
    list is the nodes left by the removals followed by the new node; the
    nodes left are a sublist of the nodes it started from, shorter by the
    length of the slice, and they are exactly the nodes before the slice
    when none of those equals a node of the slice.  There are as many
    initializers as before and every one other than the second-to-last is
    unchanged; the declared inputs and outputs, the graph name and the
    model's own fields are unchanged. *)
Theorem X17_frame_after_optimizer optimize name_in name_out w w' :
  optimize_quantized_mobilenet optimize name_in name_out w = (inr tt, w') →
  ∃ m0 m1 model' graph_node conv,
    files w !! name_in = Some (RegularFile (OnnxModel m0)) ∧
    optimize m0 ["eliminate_nop_pad"] = inr m1 ∧
    files w' = <[name_out := RegularFile (OnnxModel model')]> (files w) ∧
    GraphProto.node (ModelProto.graph model') = graph_node ++ [conv] ∧
    graph_node `sublist_of` GraphProto.node (ModelProto.graph m1) ∧
    length (GraphProto.node (ModelProto.graph m1))
      = (length (slice_last3 (GraphProto.node (ModelProto.graph m1)))
         + length graph_node)%nat ∧
    (Forall (λ n, n ∉ take (length (GraphProto.node (ModelProto.graph m1)) - 3)
                         (GraphProto.node (ModelProto.graph m1)))
       (slice_last3 (GraphProto.node (ModelProto.graph m1))) →
     graph_node = take (length (GraphProto.node (ModelProto.graph m1)) - 3)
                    (GraphProto.node (ModelProto.graph m1))) ∧
    length (GraphProto.initializer (ModelProto.graph model'))
      = length (GraphProto.initializer (ModelProto.graph m1)) ∧
    (∀ i, i ≠ (length (GraphProto.initializer (ModelProto.graph m1)) - 2)%nat →
          GraphProto.initializer (ModelProto.graph model') !! i
          = GraphProto.initializer (ModelProto.graph m1) !! i) ∧
    GraphProto.input (ModelProto.graph model') = GraphProto.input (ModelProto.graph m1) ∧
    GraphProto.output (ModelProto.graph model') = GraphProto.output (ModelProto.graph m1) ∧
    GraphProto.name (ModelProto.graph model') = GraphProto.name (ModelProto.graph m1) ∧
    ModelProto.ir_version model' = ModelProto.ir_version m1 ∧
    ModelProto.opset_import model' = ModelProto.opset_import m1 ∧
    ModelProto.producer_name model' = ModelProto.producer_name m1.
Proof.
  intros Hrun.
  apply run_inr in Hrun as (m0 & m1 & model' & H0 & H1 & Hs & Hfiles).
  destruct Hs as [g x gw gb graph_node avgpool o os weights vo vos nodes
                    initializer Hg Hop Hin Hguard Hall Havg Ho Hw Hname Hvo].
  eexists m0, m1, _, graph_node, _.
  split; [done|]. split; [done|]. split; [done|]. simpl. fold nodes initializer.
  split; [done|]. split; [by eapply remove_all_sublist|].
  split; [by apply remove_all_length|]. split.
  { intros Hfresh. rewrite <-(slice_last3_take nodes) in Hall at 2.
    rewrite remove_all_suffix in Hall; [by injection Hall|].
    intros n Hn. by apply (proj1 (Forall_forall _ _) Hfresh). }
  split; [apply length_alter|].
  split; [intros i Hi; by apply list_lookup_alter_ne|]. done.
Qed.


(** The run on [Examples.mobilenet]. *)
Lemma X17_witness :
  ∃ m0 m1 model' graph_node conv,
    files (Examples.world "model.onnx" Examples.mobilenet) !! "model.onnx"
      = Some (RegularFile (OnnxModel m0)) ∧
    reference_optimize m0 ["eliminate_nop_pad"] = inr m1 ∧
    files (optimize_quantized_mobilenet reference_optimize "model.onnx" "model_opt.onnx"
             (Examples.world "model.onnx" Examples.mobilenet)).2
      = <["model_opt.onnx" := RegularFile (OnnxModel model')]>
          (files (Examples.world "model.onnx" Examples.mobilenet)) ∧
    GraphProto.node (ModelProto.graph model') = graph_node ++ [conv] ∧
    graph_node `sublist_of` GraphProto.node (ModelProto.graph m1).
Proof.
  destruct (X17_frame_after_optimizer reference_optimize "model.onnx" "model_opt.onnx"
              (Examples.world "model.onnx" Examples.mobilenet)
              (optimize_quantized_mobilenet reference_optimize "model.onnx"
                 "model_opt.onnx" (Examples.world "model.onnx" Examples.mobilenet)).2)
    as (m0 & m1 & model' & graph_node & conv & H0 & H1 & H2 & H3 & H4 & _).
  { vm_compute. reflexivity. }
  by exists m0, m1, model', graph_node, conv.
Defined.

(** ** The lines a run prints *)

Lemma remove_node_world n g w :
  remove_node n g w =
    match check_node n with
    | inl e => (inl e, w)
    | inr _ => (repeated_remove n g,
                {| files := files w; stdout := stdout w ++ [removing_line n] |})
    end.
Proof.
  unfold remove_node, check_node, removing_line. py_unfold.
  destruct (dict_getitem _ _) as [e|k]; [done|].
  destruct (bool_decide (length (NodeProto.input n) = k)); [|done].
  destruct (bool_decide (length (NodeProto.output n) = 1%nat)); [|done].
  simpl. by destruct (repeated_remove n g).
Qed.

Lemma remove_nodes_world slice : ∀ g w,
  ∃ k, (k ≤ length slice)%nat ∧
       (∀ g', removals slice g = inr g' → k = length slice) ∧
       remove_nodes slice g w =
         (removals slice g,
          {| files := files w;
             stdout := stdout w ++ (removing_line <$> take k slice) |}).
Proof.
  induction slice as [|n slice IH]; intros g w; simpl.
  - exists 0%nat. split; [done|]. split; [done|].
    destruct w as [fs out]. simpl. by rewrite app_nil_r.
  - cbv [mbind Py_bind result_bind]. rewrite remove_node_world.
    destruct (check_node n) as [e|[]].
    { exists 0%nat. split; [lia|]. split; [done|].
      destruct w as [fs out]. simpl. by rewrite app_nil_r. }
    destruct (repeated_remove n g) as [e|g1].
    { exists 1%nat. split; [lia|]. split; [done|]. done. }
    destruct (IH g1 {| files := files w;
                       stdout := stdout w ++ [removing_line n] |})
      as (k & Hk & Hfull & ->).
    exists (S k). split; [lia|]. split.
    + intros g' Hg'. by rewrite (Hfull g' Hg').
    + simpl. by rewrite <-app_assoc.
Qed.

Section Lines.

Variable optimize : ModelProto.t -> list string -> exn + ModelProto.t.
Variables name_in name_out : string.

(** A run that goes through: the world it ends in. *)
Lemma run_completes w m0 m1 g x gw gb graph_node avgpool o os weights vo vos :
  files w !! name_in = Some (RegularFile (OnnxModel m0)) →
  optimize m0 ["eliminate_nop_pad"] = inr m1 →
  last (GraphProto.node (ModelProto.graph m1)) = Some g →
  NodeProto.op_type g = "Gemm" →
  NodeProto.input g = [x; gw; gb] →
  forallb node_guard (slice_last3 (GraphProto.node (ModelProto.graph m1))) = true →
  remove_all (slice_last3 (GraphProto.node (ModelProto.graph m1)))
    (GraphProto.node (ModelProto.graph m1)) = Some graph_node →
  last graph_node = Some avgpool →
  NodeProto.output avgpool = o :: os →
  getitem_penultimate (GraphProto.initializer (ModelProto.graph m1)) = inr weights →
  TensorProto.name weights = gw →
  GraphProto.output (ModelProto.graph m1) = vo :: vos →
  optimize_quantized_mobilenet optimize name_in name_out w =
    (inr tt,
     {| files :=
          <[name_out :=
              RegularFile
                (OnnxModel
                   (with_graph m1
                      (graph_node ++ [last_conv_fc o gw gb (ValueInfoProto.name vo)])
                      (alter (extend_dims [1; 1])
                         (length (GraphProto.initializer (ModelProto.graph m1)) - 2)%nat
                         (GraphProto.initializer (ModelProto.graph m1)))))]>
            (files w);
        stdout :=
          stdout w ++
            Reading name_in ::
            (removing_line <$> slice_last3 (GraphProto.node (ModelProto.graph m1))) ++
            [Adding "last_conv_fc" [o; gw; gb] [ValueInfoProto.name vo];
             Saving name_out; Done] |}).
Proof.
  intros H0 H1 Hg Hop Hin Hguard Hrm Havg Ho Hw Hname Hvo.
  unfold optimize_quantized_mobilenet.
  unfold mbind at 1, Py_bind at 1. unfold print at 1.
  unfold mbind at 1, Py_bind at 1. unfold onnx_load at 1. simpl files.
  rewrite H0. simpl read_model. cbv iota beta.
  unfold mbind at 1, Py_bind at 1. rewrite H1. simpl lift.
  unfold mret at 1, Py_ret at 1. cbv iota beta.
  apply getitem_last_inr in Hg, Havg. apply string_eqb_true in Hop, Hname.
  unfold mbind at 1, Py_bind at 1. rewrite Hg. simpl lift.
  unfold mret at 1, Py_ret at 1. cbv iota beta.
  unfold mbind at 1, Py_bind at 1. rewrite Hop. simpl py_assert.
  unfold mret at 1, Py_ret at 1. cbv iota beta.
  unfold mbind at 1, Py_bind at 1. rewrite Hin. simpl unpack3. simpl lift.
  unfold mret at 1, Py_ret at 1. cbv iota beta.
  unfold mbind at 1, Py_bind at 1.
  match goal with |- context [remove_nodes ?s ?l ?w0] =>
    destruct (remove_nodes_world s l w0) as (k & _ & Hfull & ->) end.
  assert (removals (slice_last3 (GraphProto.node (ModelProto.graph m1)))
            (GraphProto.node (ModelProto.graph m1)) = inr graph_node) as Hremovals
    by by apply removals_inr.
  rewrite Hremovals. rewrite (Hfull _ Hremovals), firstn_all. cbv iota beta.
  unfold mbind at 1, Py_bind at 1. rewrite Havg. simpl lift.
  unfold mret at 1, Py_ret at 1. cbv iota beta.
  unfold mbind at 1, Py_bind at 1. rewrite Ho. simpl getitem_first. simpl lift.
  unfold mret at 1, Py_ret at 1. cbv iota beta.
  unfold mbind at 1, Py_bind at 1. rewrite Hw. simpl lift.
  unfold mret at 1, Py_ret at 1. cbv iota beta.
  unfold mbind at 1, Py_bind at 1. rewrite Hname. simpl py_assert.
  unfold mret at 1, Py_ret at 1. cbv iota beta.
  unfold mbind at 1, Py_bind at 1. rewrite Hvo. simpl getitem_first. simpl lift.
  unfold mret at 1, Py_ret at 1. cbv iota beta.
  cbv [mbind Py_bind print onnx_save]. simpl files. simpl stdout.
  f_equal. f_equal. rewrite <-!app_assoc. done.
Qed.

(** A run that fails in the surgery: the world it ends in. *)
Lemma run_fails w m0 m1 e :
  files w !! name_in = Some (RegularFile (OnnxModel m0)) →
  optimize m0 ["eliminate_nop_pad"] = inr m1 →
  surgery m1 = inl e →
  ∃ k, (k ≤ length (slice_last3 (GraphProto.node (ModelProto.graph m1))))%nat ∧
    optimize_quantized_mobilenet optimize name_in name_out w =
      (inl e,
       {| files := files w;
          stdout :=
            stdout w ++
              Reading name_in ::
              (removing_line <$>
                 take k (slice_last3 (GraphProto.node (ModelProto.graph m1)))) |}).
Proof.
  intros H0 H1. unfold optimize_quantized_mobilenet, surgery.
  cbv [mbind Py_bind Py_ret mret result_bind print onnx_load lift raise
       py_assert check].
  simpl files. rewrite H0. simpl read_model. cbv iota beta. rewrite H1.
  cbv iota beta.
  destruct (getitem_last _) as [e0|g].
  { intros [= <-]. exists 0%nat. split; [lia|done]. }
  destruct (String.eqb _ _).
  2:{ intros [= <-]. exists 0%nat. split; [lia|done]. }
  destruct (unpack3 _) as [e0|[[x gw] gb]].
  { intros [= <-]. exists 0%nat. split; [lia|done]. }
  match goal with |- context [remove_nodes ?s ?l ?w0] =>
    destruct (remove_nodes_world s l w0) as (k & Hk & _ & ->) end.
  simpl files. simpl stdout. rewrite <-app_assoc. simpl app.
  destruct (removals _ _) as [e0|graph_node].
  { intros [= <-]. by exists k. }
  destruct (getitem_last graph_node) as [e0|avgpool].
  { intros [= <-]. by exists k. }
  destruct (getitem_first (NodeProto.output avgpool)) as [e0|o].
  { intros [= <-]. by exists k. }
  destruct (getitem_penultimate _) as [e0|weights].
  { intros [= <-]. by exists k. }
  destruct (String.eqb _ _).
  2:{ intros [= <-]. by exists k. }
  destruct (getitem_first (GraphProto.output _)) as [e0|vo]; [|done].
  intros [= <-]. by exists k.
Qed.

End Lines.

(** ** When a run completes *)

(** X1: the write performed by [onnx.save] being taken to succeed (its
    failures are not modelled), a run completes exactly when the file at
    name_in holds a model, the optimizer returns a model for it, that model
    passes the guards on its last three nodes and on its second-to-last
    initializer, the removals leave a last node that has an output, and the
    graph declares an output. *)
Theorem X1_completes_iff optimize name_in name_out w :
  (∃ w', optimize_quantized_mobilenet optimize name_in name_out w = (inr tt, w')) ↔
  (∃ m0 m1 graph_node avgpool o os vo vos,
     files w !! name_in = Some (RegularFile (OnnxModel m0)) ∧
     optimize m0 ["eliminate_nop_pad"] = inr m1 ∧
     node_guards (GraphProto.node (ModelProto.graph m1)) = true ∧
     weights_guard m1 = true ∧
     remove_all (slice_last3 (GraphProto.node (ModelProto.graph m1)))
       (GraphProto.node (ModelProto.graph m1)) = Some graph_node ∧
     last graph_node = Some avgpool ∧
     NodeProto.output avgpool = o :: os ∧
     GraphProto.output (ModelProto.graph m1) = vo :: vos).
Proof.
  split.
  - intros [w' Hrun].
    apply run_inr in Hrun as (m0 & m1 & model' & H0 & H1 & Hs & _).
    destruct (surgery_result_guards _ _ Hs) as [Hng Hwg].
    destruct Hs as [g x gw gb graph_node avgpool o os weights vo vos nodes
                      initializer Hg Hop Hin Hguard Hall Havg Ho Hw Hname Hvo].
    by exists m0, m1, graph_node, avgpool, o, os, vo, vos.
  - intros (m0 & m1 & graph_node & avgpool & o & os & vo & vos
            & H0 & H1 & Hng & Hwg & Hrm & Havg & Ho & Hvo).
    destruct (surgery_result_intro m1 graph_node avgpool o os vo vos)
      as (g & x & gw & gb & _ & _ & Hs); try done.
    destruct (run_ok optimize name_in name_out w m0 m1 _ H0 H1 Hs) as (w' & Hrun & _).
    by exists w'.
Qed.

Lemma slice_last3_short {A} (l : list A) : (length l ≤ 3)%nat → slice_last3 l = l.
Proof.
  intros H. unfold slice_last3.
  by replace (length l - 3)%nat with 0%nat by lia.
Qed.

Lemma slice_last3_length {A} (l : list A) :
  (3 ≤ length l)%nat → length (slice_last3 l) = 3%nat.
Proof. intros H. unfold slice_last3. rewrite length_drop. lia. Qed.

(** X2: a graph of at most three nodes is never saved.  Whatever its nodes
    are, the removals leave nothing for the script to read the output name
    from, so the run ends with an exception and writes nothing. *)
Theorem X2_short_graph_never_saved optimize name_in name_out w m0 m1 :
  files w !! name_in = Some (RegularFile (OnnxModel m0)) →
  optimize m0 ["eliminate_nop_pad"] = inr m1 →
  (length (GraphProto.node (ModelProto.graph m1)) ≤ 3)%nat →
  ∃ e w',
    optimize_quantized_mobilenet optimize name_in name_out w = (inl e, w') ∧
    files w' = files w.
Proof.
  intros H0 H1 Hlen.
  destruct (surgery m1) as [e|model'] eqn:Hs.
  { exists e. by eapply run_surgery_inl. }
  exfalso. apply surgery_inr in Hs.
  destruct Hs as [g x gw gb graph_node avgpool o os weights vo vos nodes
                    initializer Hg Hop Hin Hguard Hall Havg Ho Hw Hname Hvo].
  apply remove_all_length in Hall. subst nodes.
  rewrite slice_last3_short in Hall by done.
  destruct graph_node; [done|]. simpl in Hall. lia.
Qed.

(** The three nodes of the fully-connected layer alone. *)
Lemma X2_witness :
  ∃ e w',
    optimize_quantized_mobilenet reference_optimize "model.onnx" "model_opt.onnx"
      (Examples.world "model.onnx" Examples.only_fc) = (inl e, w') ∧
    files w' = files (Examples.world "model.onnx" Examples.only_fc).
Proof.
  apply (X2_short_graph_never_saved reference_optimize "model.onnx" "model_opt.onnx"
           (Examples.world "model.onnx" Examples.only_fc)
           Examples.only_fc Examples.only_fc);
    [vm_compute; reflexivity | vm_compute; reflexivity | vm_compute; lia].
Defined.

(** X3: a run that completes had at least four nodes to work on, and the
    graph it saves has exactly two nodes fewer: three removed, one added. *)
Theorem X3_two_nodes_fewer optimize name_in name_out w w' m0 m1 :
  files w !! name_in = Some (RegularFile (OnnxModel m0)) →
  optimize m0 ["eliminate_nop_pad"] = inr m1 →
  optimize_quantized_mobilenet optimize name_in name_out w = (inr tt, w') →
  ∃ model',
    files w' !! name_out = Some (RegularFile (OnnxModel model')) ∧
    (4 ≤ length (GraphProto.node (ModelProto.graph m1)))%nat ∧
    (length (GraphProto.node (ModelProto.graph model')) + 2
     = length (GraphProto.node (ModelProto.graph m1)))%nat.
Proof.
  intros H0 H1 Hrun.
  apply run_inr in Hrun as (m0' & m1' & model' & H0' & H1' & Hs & Hfiles).
  rewrite H0 in H0'. injection H0' as <-. rewrite H1 in H1'. injection H1' as <-.
  exists model'. split; [by rewrite Hfiles, lookup_insert_eq|].
  destruct Hs as [g x gw gb graph_node avgpool o os weights vo vos nodes
                    initializer Hg Hop Hin Hguard Hall Havg Ho Hw Hname Hvo].
  apply remove_all_length in Hall. simpl. fold nodes.
  rewrite length_app. simpl.
  destruct (decide (length nodes ≤ 3)%nat) as [Hle|Hgt].
  - rewrite slice_last3_short in Hall by done.
    destruct graph_node; [done|]. simpl in Hall. lia.
  - rewrite slice_last3_length in Hall by lia. lia.
Qed.

(** The run on [Examples.mobilenet]: five nodes after the optimizer, three
    saved. *)
Lemma X3_witness :
  ∃ model',
    files (optimize_quantized_mobilenet reference_optimize "model.onnx" "model_opt.onnx"
             (Examples.world "model.onnx" Examples.mobilenet)).2 !! "model_opt.onnx"
      = Some (RegularFile (OnnxModel model')) ∧
    (4 ≤ 5)%nat ∧
    (length (GraphProto.node (ModelProto.graph model')) + 2 = 5)%nat.
Proof.
  apply (X3_two_nodes_fewer reference_optimize "model.onnx" "model_opt.onnx"
           (Examples.world "model.onnx" Examples.mobilenet) _
           Examples.mobilenet Examples.mobilenet_no_pad);
    vm_compute; reflexivity.
Defined.

(** ** The removals find their nodes *)

Lemma check_node_not_ValueError n : check_node n ≠ inl ValueError.
Proof.
  unfold check_node, dict_getitem. cbv [mbind result_bind check].
  destruct (expected_inputs_dict !! _); [|done].
  destruct (bool_decide _); [|done]. by destruct (bool_decide _).
Qed.

Lemma removals_not_ValueError slice : ∀ g,
  slice ⊆+ g → removals slice g ≠ inl ValueError.
Proof.
  induction slice as [|n slice IH]; intros g Hsub; simpl; [done|].
  cbv [mbind result_bind].
  destruct (check_node n) as [e|[]] eqn:Hc.
  { intros [= ->]. by apply (check_node_not_ValueError n). }
  apply submseteq_cons_l in Hsub as (k & Hk & Hsub).
  destruct (remove_first_Some n g) as (g1 & Hg1 & Hp).
  { rewrite Hk. left. }
  unfold repeated_remove. rewrite Hg1. apply IH.
  rewrite Hk in Hp. apply Permutation_cons_inv in Hp. by rewrite <-Hp.
Qed.

(** X4: the removal loop always finds the node it is about to remove.  It
    never ends with the ValueError of [remove]; and when the last three
    nodes pass their checks it returns, having taken out of the graph the
    nodes of the slice and nothing else: the nodes it started from are the
    slice and the nodes it leaves, up to their order. *)
Theorem X4_removal_finds_every_node (nodes : list NodeProto.t) w :
  (∀ e w', remove_nodes (slice_last3 nodes) nodes w = (inl e, w') → e ≠ ValueError) ∧
  (forallb node_guard (slice_last3 nodes) = true →
   ∃ graph_node w',
     remove_nodes (slice_last3 nodes) nodes w = (inr graph_node, w') ∧
     nodes ≡ₚ slice_last3 nodes ++ graph_node).
Proof.
  assert (slice_last3 nodes ⊆+ nodes) as Hsub
    by apply sublist_submseteq, sublist_drop.
  destruct (remove_nodes_spec (slice_last3 nodes) nodes w) as (w1 & Hrun & _).
  split.
  - intros e w' He. rewrite Hrun in He. injection He as He _.
    intros ->. by apply (removals_not_ValueError _ _ Hsub).
  - intros Hguard.
    destruct (remove_all_Some _ _ Hsub) as (graph_node & Hrm & Hperm).
    exists graph_node, w1. split; [|done].
    rewrite Hrun. f_equal. by apply removals_inr.
Qed.

(** The loop on the nodes of [Examples.twice_constant]. *)
Lemma X4_witness :
  ∃ graph_node w',
    remove_nodes
      (slice_last3 (GraphProto.node (ModelProto.graph Examples.twice_constant)))
      (GraphProto.node (ModelProto.graph Examples.twice_constant))
      (Examples.world "model.onnx" Examples.twice_constant) = (inr graph_node, w') ∧
    GraphProto.node (ModelProto.graph Examples.twice_constant)
      ≡ₚ slice_last3 (GraphProto.node (ModelProto.graph Examples.twice_constant))
           ++ graph_node.
Proof.
  apply (X4_removal_finds_every_node
           (GraphProto.node (ModelProto.graph Examples.twice_constant))
           (Examples.world "model.onnx" Examples.twice_constant)).
  vm_compute. reflexivity.
Defined.

(** ** What a run prints *)

(** X5: a run that completes prints, in this order: the line that it reads
    name_in; one line for each of the last three nodes of the model returned
    by the optimizer, in their order in the graph; the line for the node it
    adds, which is the last node of the saved graph; the line that it saves
    to name_out; and the closing line. *)
Theorem X5_lines_of_a_complete_run optimize name_in name_out w w' m0 m1 :
  files w !! name_in = Some (RegularFile (OnnxModel m0)) →
  optimize m0 ["eliminate_nop_pad"] = inr m1 →
  optimize_quantized_mobilenet optimize name_in name_out w = (inr tt, w') →
  ∃ model' conv,
    files w' !! name_out = Some (RegularFile (OnnxModel model')) ∧
    last (GraphProto.node (ModelProto.graph model')) = Some conv ∧
    stdout w' =
      stdout w ++
        [Reading name_in] ++
        (removing_line <$> slice_last3 (GraphProto.node (ModelProto.graph m1))) ++
        [Adding (NodeProto.name conv) (NodeProto.input conv) (NodeProto.output conv);
         Saving name_out; Done].
Proof.
  intros H0 H1 Hrun.
  destruct (run_inr optimize name_in name_out w w' Hrun)
    as (m0' & m1' & model' & H0' & H1' & Hs & _).
  rewrite H0 in H0'. injection H0' as <-. rewrite H1 in H1'. injection H1' as <-.
  destruct Hs as [g x gw gb graph_node avgpool o os weights vo vos nodes
                    initializer Hg Hop Hin Hguard Hall Havg Ho Hw Hname Hvo].
  rewrite (run_completes optimize name_in name_out w m0 m1 g x gw gb graph_node
             avgpool o os weights vo vos) in Hrun by done.
  injection Hrun as <-. simpl.
  eexists _, _. split; [by rewrite lookup_insert_eq|].
  split; [apply last_snoc|done].
Qed.

(** The run on [Examples.mobilenet]. *)
Lemma X5_witness :
  stdout (optimize_quantized_mobilenet reference_optimize "model.onnx" "model_opt.onnx"
            (Examples.world "model.onnx" Examples.mobilenet)).2
  = [Reading "model.onnx";
     Removing "Constant" [] ["shape"];
     Removing "Reshape" ["pooled"; "shape"] ["flat"];
     Removing "Gemm" ["flat"; "fc_w"; "fc_b"] ["prob"];
     Adding "last_conv_fc" ["pooled"; "fc_w"; "fc_b"] ["prob"];
     Saving "model_opt.onnx"; Done].
Proof.
  destruct (X5_lines_of_a_complete_run reference_optimize "model.onnx" "model_opt.onnx"
              (Examples.world "model.onnx" Examples.mobilenet)
              (optimize_quantized_mobilenet reference_optimize "model.onnx"
                 "model_opt.onnx" (Examples.world "model.onnx" Examples.mobilenet)).2
              Examples.mobilenet Examples.mobilenet_no_pad)
    as (model' & conv & Hfile & Hlast & Hout);
    [vm_compute; reflexivity..|].
  vm_compute. reflexivity.
Defined.

(** X6: a run that fails after the optimizer has returned has printed the
    line that it reads name_in and then only lines for nodes it removes, for
    the first nodes of the slice in their order; it has not printed the line
    for the added node, the line that it saves, or the closing line, and it
    has written nothing. *)
Theorem X6_lines_of_a_failed_run optimize name_in name_out w w' m0 m1 e :
  files w !! name_in = Some (RegularFile (OnnxModel m0)) →
  optimize m0 ["eliminate_nop_pad"] = inr m1 →
  optimize_quantized_mobilenet optimize name_in name_out w = (inl e, w') →
  ∃ k, (k ≤ length (slice_last3 (GraphProto.node (ModelProto.graph m1))))%nat ∧
    stdout w' =
      stdout w ++
        [Reading name_in] ++
        (removing_line <$>
           take k (slice_last3 (GraphProto.node (ModelProto.graph m1)))) ∧
    files w' = files w.
Proof.
  intros H0 H1 Hrun.
  destruct (surgery m1) as [e'|model'] eqn:Hs.
  - destruct (run_fails optimize name_in name_out w m0 m1 e' H0 H1 Hs)
      as (k & Hk & Hrun').
    rewrite Hrun' in Hrun. injection Hrun as _ <-. by exists k.
  - apply surgery_inr in Hs.
    destruct (run_ok optimize name_in name_out w m0 m1 model' H0 H1 Hs)
      as (w'' & Hrun' & _).
    rewrite Hrun' in Hrun. discriminate.
Qed.

(** The run on [Examples.flatten_after_bad_constant], which fails on the
    first node of the slice. *)
Lemma X6_witness :
  ∃ k, (k ≤ 3)%nat ∧
    stdout (optimize_quantized_mobilenet reference_optimize "model.onnx"
              "model_opt.onnx"
              (Examples.world "model.onnx" Examples.flatten_after_bad_constant)).2
      = [] ++ [Reading "model.onnx"] ++
        (removing_line <$>
           take k (slice_last3
                     (GraphProto.node
                        (ModelProto.graph Examples.flatten_after_bad_constant)))) ∧
    files (optimize_quantized_mobilenet reference_optimize "model.onnx"
             "model_opt.onnx"
             (Examples.world "model.onnx" Examples.flatten_after_bad_constant)).2
      = files (Examples.world "model.onnx" Examples.flatten_after_bad_constant).
Proof.
  apply (X6_lines_of_a_failed_run reference_optimize "model.onnx" "model_opt.onnx"
           (Examples.world "model.onnx" Examples.flatten_after_bad_constant) _
           Examples.flatten_after_bad_constant Examples.flatten_after_bad_constant
           (AssertionError (ExpectedInputs 0 "Constant" 1)));
    vm_compute; reflexivity.
Defined.

(** ** The checks before the loop *)

Lemma run_last_not_gemm optimize name_in name_out w m0 m1 g :
  files w !! name_in = Some (RegularFile (OnnxModel m0)) →
  optimize m0 ["eliminate_nop_pad"] = inr m1 →
  last (GraphProto.node (ModelProto.graph m1)) = Some g →
  NodeProto.op_type g ≠ "Gemm" →
  optimize_quantized_mobilenet optimize name_in name_out w
    = (inl (AssertionError ExpectedGemmLast),
       {| files := files w; stdout := stdout w ++ [Reading name_in] |}).
Proof.
  intros H0 H1 Hg Hop. unfold optimize_quantized_mobilenet.
  cbv [mbind Py_bind print onnx_load lift raise mret Py_ret py_assert]. simpl.
  rewrite H0. simpl. rewrite H1.
  apply getitem_last_inr in Hg. rewrite Hg.
  destruct (String.eqb (NodeProto.op_type g) "Gemm") eqn:Heq; [|done].
  by apply string_eqb_true in Heq.
Qed.

(** X7: when the last node of the model returned by the optimizer is not a
    Gemm node, the run ends with the first assertion, before the loop: it
    has printed only its first line, and has written nothing. *)
Theorem X7_last_node_not_gemm optimize name_in name_out w m0 m1 g :
  files w !! name_in = Some (RegularFile (OnnxModel m0)) →
  optimize m0 ["eliminate_nop_pad"] = inr m1 →
  last (GraphProto.node (ModelProto.graph m1)) = Some g →
  NodeProto.op_type g ≠ "Gemm" →
  optimize_quantized_mobilenet optimize name_in name_out w
    = (inl (AssertionError ExpectedGemmLast),
       {| files := files w; stdout := stdout w ++ [Reading name_in] |}).
Proof.
  intros H0 H1 Hg Hop. unfold optimize_quantized_mobilenet.
  cbv [mbind Py_bind print onnx_load lift raise mret Py_ret py_assert]. simpl.
  rewrite H0. simpl. rewrite H1.
  apply getitem_last_inr in Hg. rewrite Hg.
  destruct (String.eqb (NodeProto.op_type g) "Gemm") eqn:Heq; [|done].
  by apply string_eqb_true in Heq.
Qed.

(** The Reshape node as the last node. *)
Lemma X7_witness :
  optimize_quantized_mobilenet reference_optimize "model.onnx" "model_opt.onnx"
    (Examples.world "model.onnx" Examples.reshape_last)
  = (inl (AssertionError ExpectedGemmLast),
     {| files := files (Examples.world "model.onnx" Examples.reshape_last);
        stdout := [Reading "model.onnx"] |}).
Proof.
  apply (X7_last_node_not_gemm reference_optimize "model.onnx" "model_opt.onnx"
           (Examples.world "model.onnx" Examples.reshape_last)
           Examples.reshape_last Examples.reshape_last Examples.reshape);
    [vm_compute; reflexivity..|discriminate].
Defined.

(** X8: when the model returned by the optimizer has no node, the run ends
    with the IndexError of reading the last node, not with an assertion; it
    has printed only its first line, and has written nothing. *)
Theorem X8_no_node optimize name_in name_out w m0 m1 :
  files w !! name_in = Some (RegularFile (OnnxModel m0)) →
  optimize m0 ["eliminate_nop_pad"] = inr m1 →
  GraphProto.node (ModelProto.graph m1) = [] →
  optimize_quantized_mobilenet optimize name_in name_out w
    = (inl IndexError,
       {| files := files w; stdout := stdout w ++ [Reading name_in] |}).
Proof.
  intros H0 H1 Hnodes. unfold optimize_quantized_mobilenet.
  cbv [mbind Py_bind print onnx_load lift raise mret Py_ret py_assert]. simpl.
  rewrite H0. simpl. rewrite H1, Hnodes. done.
Qed.

(** A model without nodes. *)
Lemma X8_witness :
  optimize_quantized_mobilenet reference_optimize "model.onnx" "model_opt.onnx"
    (Examples.world "model.onnx" Examples.no_nodes)
  = (inl IndexError,
     {| files := files (Examples.world "model.onnx" Examples.no_nodes);
        stdout := [Reading "model.onnx"] |}).
Proof.
  apply (X8_no_node reference_optimize "model.onnx" "model_opt.onnx"
           (Examples.world "model.onnx" Examples.no_nodes)
           Examples.no_nodes Examples.no_nodes);
    vm_compute; reflexivity.
Defined.

(** ** The script applied to what it saved *)

(** X9: the script does not apply twice.  The graph it saves ends with the
    Conv node, so a second run that reads the saved file, the optimizer
    leaving those nodes as they are, ends with the first assertion and
    writes nothing. *)
Theorem X9_second_pass_fails optimize name_in name_out name_again w w' :
  optimize_quantized_mobilenet optimize name_in name_out w = (inr tt, w') →
  (∀ model', files w' !! name_out = Some (RegularFile (OnnxModel model')) →
     ∃ m2, optimize model' ["eliminate_nop_pad"] = inr m2 ∧
           GraphProto.node (ModelProto.graph m2)
           = GraphProto.node (ModelProto.graph model')) →
  optimize_quantized_mobilenet optimize name_out name_again w'
    = (inl (AssertionError ExpectedGemmLast),
       {| files := files w'; stdout := stdout w' ++ [Reading name_out] |}).
Proof.
  intros Hrun Hopt.
  apply run_inr in Hrun as (m0 & m1 & model' & H0 & H1 & Hs & Hfiles).
  assert (files w' !! name_out = Some (RegularFile (OnnxModel model'))) as Hsaved
    by by rewrite Hfiles, lookup_insert_eq.
  destruct (Hopt model' Hsaved) as (m2 & H2 & Hnodes).
  destruct Hs as [g x gw gb graph_node avgpool o os weights vo vos nodes
                    initializer Hg Hop Hin Hguard Hall Havg Ho Hw Hname Hvo].
  eapply run_last_not_gemm; [done..| |].
  - rewrite Hnodes. simpl. apply last_snoc.
  - done.
Qed.

(** A second run on the file saved for [Examples.mobilenet]. *)
Lemma X9_witness :
  (optimize_quantized_mobilenet reference_optimize "model_opt.onnx" "again.onnx"
     (optimize_quantized_mobilenet reference_optimize "model.onnx" "model_opt.onnx"
        (Examples.world "model.onnx" Examples.mobilenet)).2).1
  = inl (AssertionError ExpectedGemmLast).
Proof.
  rewrite (X9_second_pass_fails reference_optimize "model.onnx" "model_opt.onnx"
             "again.onnx" (Examples.world "model.onnx" Examples.mobilenet)
             (optimize_quantized_mobilenet reference_optimize "model.onnx"
                "model_opt.onnx" (Examples.world "model.onnx" Examples.mobilenet)).2).
  - reflexivity.
  - vm_compute. reflexivity.
  - intros model' H. vm_compute in H. injection H as <-.
    eexists. split; vm_compute; reflexivity.
Defined.

(** ** [main] run again *)

Lemma main_inr optimize w w' :
  main optimize w = (inr tt, w') →
  isdir (files w) "./Quantized MobileNet" = true ∧
  isfile (files w) "./Quantized MobileNet/mobilenet_sym_no_bn.onnx" = true ∧
  optimize_quantized_mobilenet optimize
    "./Quantized MobileNet/mobilenet_sym_no_bn.onnx"
    "mobilenet_quantized_opt.onnx" w = (inr tt, w').
Proof.
  rewrite main_unfold.
  destruct (isdir _ _); [|done]. destruct (isfile _ _); [|done]. done.
Qed.

(** X10: [main] can be run again.  It never writes to the directory or to
    the file it reads, so after a run that completed a second run completes
    as well, and leaves the files as the first run left them. *)
Theorem X10_main_again optimize w w' :
  main optimize w = (inr tt, w') →
  ∃ w'', main optimize w' = (inr tt, w'') ∧ files w'' = files w'.
Proof.
  intros Hmain. apply main_inr in Hmain as (Hd & Hf & Hrun).
  destruct (optimize_quantized_mobilenet_spec optimize
              "./Quantized MobileNet/mobilenet_sym_no_bn.onnx"
              "mobilenet_quantized_opt.onnx" w) as (w1 & Hspec & Hfiles).
  rewrite Hrun in Hspec. injection Hspec as Hres <-.
  destruct (outcome optimize _ (files w !! _)) as [e|model'] eqn:Hout; [done|].
  assert (files w' !! "./Quantized MobileNet/mobilenet_sym_no_bn.onnx"
          = files w !! "./Quantized MobileNet/mobilenet_sym_no_bn.onnx") as Hin
    by by rewrite Hfiles, lookup_insert_ne.
  destruct (optimize_quantized_mobilenet_spec optimize
              "./Quantized MobileNet/mobilenet_sym_no_bn.onnx"
              "mobilenet_quantized_opt.onnx" w') as (w2 & Hspec2 & Hfiles2).
  rewrite Hin, Hout in Hspec2, Hfiles2.
  exists w2. split.
  - rewrite main_unfold. unfold isdir, isfile in *.
    rewrite Hin, Hfiles, lookup_insert_ne by done.
    destruct (files w !! "./Quantized MobileNet") as [[|?]|]; try done.
    destruct (files w !! "./Quantized MobileNet/mobilenet_sym_no_bn.onnx")
      as [[|?]|]; done.
  - by rewrite Hfiles2, Hfiles, insert_insert_eq.
Qed.

(** [main] twice, from a world that has the directory and the file. *)
Lemma X10_witness :
  ∃ w'', main reference_optimize
           (main reference_optimize (Examples.main_world Examples.mobilenet)).2
         = (inr tt, w'') ∧
         files w''
         = files (main reference_optimize (Examples.main_world Examples.mobilenet)).2.
Proof.
  apply (X10_main_again reference_optimize (Examples.main_world Examples.mobilenet)).
  vm_compute. reflexivity.
Defined.

(** X11: the only path [main] may write is mobilenet_quantized_opt.onnx:
    whatever the outcome, every other entry of the file system, the input
    model among them, is afterwards as it was. *)
Theorem X11_main_writes_one_path optimize w p :
  p ≠ "mobilenet_quantized_opt.onnx" →
  files (main optimize w).2 !! p = files w !! p.
Proof.
  intros Hp. rewrite main_unfold.
  destruct (isdir _ _); [|done]. destruct (isfile _ _); [|done]. simpl.
  destruct (optimize_quantized_mobilenet_spec optimize
              "./Quantized MobileNet/mobilenet_sym_no_bn.onnx"
              "mobilenet_quantized_opt.onnx" w) as (w1 & -> & Hfiles).
  simpl. rewrite Hfiles.
  destruct (outcome optimize _ _); [done|]. by rewrite lookup_insert_ne.
Qed.

(** The input model after [main]. *)
Lemma X11_witness :
  files (main reference_optimize (Examples.main_world Examples.mobilenet)).2
    !! "./Quantized MobileNet/mobilenet_sym_no_bn.onnx"
  = Some (RegularFile (OnnxModel Examples.mobilenet)).
Proof.
  rewrite (X11_main_writes_one_path reference_optimize
             (Examples.main_world Examples.mobilenet)
             "./Quantized MobileNet/mobilenet_sym_no_bn.onnx").
  - vm_compute. reflexivity.
  - discriminate.
Defined.

(** ** What the checks of the loop do not look at *)

Lemma remove_nodes_returns_iff (nodes : list NodeProto.t) w :
  (∃ graph_node w',
     remove_nodes (slice_last3 nodes) nodes w = (inr graph_node, w')) ↔
  forallb node_guard (slice_last3 nodes) = true.
Proof.
  destruct (remove_nodes_spec (slice_last3 nodes) nodes w) as (w1 & Hrun & _).
  rewrite Hrun. split.
  - intros (graph_node & w' & [= Hr _]). by apply removals_inr in Hr as [? _].
  - intros Hguard.
    destruct (remove_all_slice_last3 nodes) as [graph_node Hrm].
    exists graph_node, w1. f_equal. by apply removals_inr.
Qed.

(** X12: the checks of the loop look at each of the last three nodes on its
    own, not at their order: the loop goes through on a graph exactly when
    it goes through on the graph with the first two of its last three nodes
    exchanged. *)
Theorem X12_checks_ignore_order (pre : list NodeProto.t) a b g w :
  (∃ graph_node w',
     remove_nodes (slice_last3 (pre ++ [a; b; g])) (pre ++ [a; b; g]) w
     = (inr graph_node, w')) ↔
  (∃ graph_node w',
     remove_nodes (slice_last3 (pre ++ [b; a; g])) (pre ++ [b; a; g]) w
     = (inr graph_node, w')).
Proof.
  rewrite !remove_nodes_returns_iff, !slice_last3_app. simpl.
  by rewrite !andb_assoc, (andb_comm (node_guard a)).
Qed.

(** ** The new node in the saved graph *)

(** X13: in the graph that a run saves, the new node is connected.  It comes
    right after the node that the removals left last and reads that node's
    first output; its second input is the name of the second-to-last
    initializer of the saved model, whose dims now end with the two ones;
    and its only output is the name of the first declared output of the
    graph. *)
Theorem X13_new_node_is_connected optimize name_in name_out w w' :
  optimize_quantized_mobilenet optimize name_in name_out w = (inr tt, w') →
  ∃ model' rest prev conv o gw gb weights dims vo,
    files w' !! name_out = Some (RegularFile (OnnxModel model')) ∧
    GraphProto.node (ModelProto.graph model') = rest ++ [prev; conv] ∧
    NodeProto.input conv = [o; gw; gb] ∧
    head (NodeProto.output prev) = Some o ∧
    GraphProto.initializer (ModelProto.graph model')
      !! (length (GraphProto.initializer (ModelProto.graph model')) - 2)%nat
      = Some weights ∧
    TensorProto.name weights = gw ∧
    TensorProto.dims weights = dims ++ [1; 1] ∧
    head (GraphProto.output (ModelProto.graph model')) = Some vo ∧
    NodeProto.output conv = [ValueInfoProto.name vo].
Proof.
  intros Hrun.
  apply run_inr in Hrun as (m0 & m1 & model' & H0 & H1 & Hs & Hfiles).
  destruct Hs as [g x gw gb graph_node avgpool o os weights vo vos nodes
                    initializer Hg Hop Hin Hguard Hall Havg Ho Hw Hname Hvo].
  apply last_Some in Havg as [rest ->].
  apply getitem_penultimate_inr in Hw as [_ Hw].
  eexists _, rest, avgpool, _, o, gw, gb, _, (TensorProto.dims weights), vo.
  split; [by rewrite Hfiles, lookup_insert_eq|]. simpl.
  split; [by rewrite <-app_assoc|]. split; [done|].
  split; [by rewrite Ho|].
  split; [by rewrite length_alter, list_lookup_alter_eq, Hw|].
  split; [done|]. split; [done|]. split; [by rewrite Hvo|done].
Qed.

(** The run on [Examples.mobilenet]. *)
Lemma X13_witness :
  ∃ model' rest prev conv o gw gb weights dims vo,
    files (optimize_quantized_mobilenet reference_optimize "model.onnx" "model_opt.onnx"
             (Examples.world "model.onnx" Examples.mobilenet)).2 !! "model_opt.onnx"
      = Some (RegularFile (OnnxModel model')) ∧
    GraphProto.node (ModelProto.graph model') = rest ++ [prev; conv] ∧
    NodeProto.input conv = [o; gw; gb] ∧
    head (NodeProto.output prev) = Some o ∧
    GraphProto.initializer (ModelProto.graph model')
      !! (length (GraphProto.initializer (ModelProto.graph model')) - 2)%nat
      = Some weights ∧
    TensorProto.name weights = gw ∧
    TensorProto.dims weights = dims ++ [1; 1] ∧
    head (GraphProto.output (ModelProto.graph model')) = Some vo ∧
    NodeProto.output conv = [ValueInfoProto.name vo].
Proof.
  apply (X13_new_node_is_connected reference_optimize "model.onnx" "model_opt.onnx"
           (Examples.world "model.onnx" Examples.mobilenet)).
  vm_compute. reflexivity.
Defined.

(** ** The assertion on the initializer *)

Section AfterLoop.

Variable optimize : ModelProto.t -> list string -> exn + ModelProto.t.
Variables name_in name_out : string.

(** A run that fails in the surgery after the loop has gone through. *)
Lemma run_fails_after_loop w m0 m1 g x gw gb graph_node e :
  files w !! name_in = Some (RegularFile (OnnxModel m0)) →
  optimize m0 ["eliminate_nop_pad"] = inr m1 →
  last (GraphProto.node (ModelProto.graph m1)) = Some g →
  NodeProto.op_type g = "Gemm" →
  NodeProto.input g = [x; gw; gb] →
  removals (slice_last3 (GraphProto.node (ModelProto.graph m1)))
    (GraphProto.node (ModelProto.graph m1)) = inr graph_node →
  surgery m1 = inl e →
  optimize_quantized_mobilenet optimize name_in name_out w
    = (inl e,
       {| files := files w;
          stdout :=
            stdout w ++
              Reading name_in ::
              (removing_line <$>
                 slice_last3 (GraphProto.node (ModelProto.graph m1))) |}).
Proof.
  intros H0 H1 Hg Hop Hin Hrm.
  apply getitem_last_inr in Hg. apply string_eqb_true in Hop.
  unfold optimize_quantized_mobilenet, surgery.
  cbv [mbind Py_bind Py_ret mret result_bind print onnx_load lift raise
       py_assert check].
  simpl files. rewrite H0. simpl read_model. cbv iota beta. rewrite H1.
  cbv iota beta. rewrite Hg. cbv iota beta. rewrite Hop. cbv iota beta.
  rewrite Hin. cbn [unpack3]. cbv iota beta.
  match goal with |- context [remove_nodes ?s ?l ?w0] =>
    destruct (remove_nodes_world s l w0) as (k & _ & Hfull & ->) end.
  rewrite (Hfull _ Hrm), firstn_all, Hrm. cbv iota beta.
  simpl files. simpl stdout. rewrite <-app_assoc. simpl app.
  destruct (getitem_last graph_node) as [e0|avgpool];
    [intros He; by simplify_eq|].
  destruct (getitem_first (NodeProto.output avgpool)) as [e0|o];
    [intros He; by simplify_eq|].
  destruct (getitem_penultimate _) as [e0|weights]; [intros He; by simplify_eq|].
  destruct (String.eqb (TensorProto.name weights) gw); [|intros He; by simplify_eq].
  destruct (getitem_first (GraphProto.output _)) as [e0|vo]; [|done].
  intros He. by simplify_eq.
Qed.

End AfterLoop.

(** X14: when the last three nodes pass their checks and a node with an
    output is left, but the second-to-last initializer is not named as the
    weights input of the Gemm node, the run ends with the assertion on that
    name.  By then the loop has gone through, and the run has printed a line
    for each of the three nodes; but it has written nothing. *)
Theorem X14_weights_name_mismatch optimize name_in name_out w m0 m1
    g x gw gb graph_node avgpool o os weights :
  files w !! name_in = Some (RegularFile (OnnxModel m0)) →
  optimize m0 ["eliminate_nop_pad"] = inr m1 →
  node_guards (GraphProto.node (ModelProto.graph m1)) = true →
  last (GraphProto.node (ModelProto.graph m1)) = Some g →
  NodeProto.input g = [x; gw; gb] →
  remove_all (slice_last3 (GraphProto.node (ModelProto.graph m1)))
    (GraphProto.node (ModelProto.graph m1)) = Some graph_node →
  last graph_node = Some avgpool →
  NodeProto.output avgpool = o :: os →
  getitem_penultimate (GraphProto.initializer (ModelProto.graph m1)) = inr weights →
  TensorProto.name weights ≠ gw →
  optimize_quantized_mobilenet optimize name_in name_out w
    = (inl (AssertionError InitializerName),
       {| files := files w;
          stdout :=
            stdout w ++
              Reading name_in ::
              (removing_line <$>
                 slice_last3 (GraphProto.node (ModelProto.graph m1))) |}).
Proof.
  intros H0 H1 Hng Hg Hin Hrm Havg Ho Hw Hname.
  apply node_guards_inv in Hng as (g' & x' & gw' & gb' & Hg' & Hop & _ & Hall).
  rewrite Hg in Hg'. injection Hg' as <-.
  assert (removals (slice_last3 (GraphProto.node (ModelProto.graph m1)))
            (GraphProto.node (ModelProto.graph m1)) = inr graph_node) as Hremovals
    by by apply removals_inr.
  eapply run_fails_after_loop; try done.
  unfold surgery. cbv [mbind result_bind check].
  apply getitem_last_inr in Hg, Havg. rewrite Hg.
  apply string_eqb_true in Hop. rewrite Hop, Hin. simpl.
  rewrite Hremovals, Havg, Ho. simpl. rewrite Hw.
  destruct (String.eqb (TensorProto.name weights) gw) eqn:Heq; [|done].
  by apply string_eqb_true in Heq.
Qed.

(** The run on [Examples.other_weights]. *)
Lemma X14_witness :
  optimize_quantized_mobilenet reference_optimize "model.onnx" "model_opt.onnx"
    (Examples.world "model.onnx" Examples.other_weights)
  = (inl (AssertionError InitializerName),
     {| files := files (Examples.world "model.onnx" Examples.other_weights);
        stdout :=
          [Reading "model.onnx";
           Removing "Constant" [] ["shape"];
           Removing "Reshape" ["pooled"; "shape"] ["flat"];
           Removing "Gemm" ["flat"; "conv_w"; "fc_b"] ["prob"]] |}).
Proof.
  apply (X14_weights_name_mismatch reference_optimize "model.onnx" "model_opt.onnx"
           (Examples.world "model.onnx" Examples.other_weights)
           Examples.other_weights Examples.other_weights
           (Examples.node "Gemm" ["flat"; "conv_w"; "fc_b"] ["prob"])
           "flat" "conv_w" "fc_b"
           [Examples.relu; Examples.avgpool "relu"] (Examples.avgpool "relu")
           "pooled" [] Examples.fc_w);
    try (vm_compute; reflexivity).
  discriminate.
Defined.
